(** * Amazon customer-feedback dashboard ([dssprojectapp/app.py])

    A shallow embedding of the Streamlit script and of the pandas
    operations it calls, followed by the properties of the sentiment
    labelling and aggregation pipeline.

    Conventions of the embedding.
    - A Python object stored in a table cell is a [value].
    - A binary64 number is represented by the rational it denotes;
      [float('nan')] is the separate constructor [VNaN].  Comparisons are
      therefore exact.  The arithmetic of the aggregates (division,
      multiplication, rounding to decimals) is carried out on these
      rationals, i.e. without the last-bit rounding of binary64.
    - An exception is a [Raise] result; the widgets rendered before the
      exception stay in the output log.
    - The sentiment scorer (TextBlob), Python's [repr] of floats and
      timestamps and the calendar are collaborators of the script and are
      taken as an interface ([Collaborators]). *)

From Stdlib Require Import String Ascii DecimalString ZArith QArith Qround Qabs Bool.
From Stdlib Require Import Lia Lqa List Permutation Sorted.
From Stdlib Require Floats.
Import ListNotations.

Local Open Scope string_scope.
Local Open Scope list_scope.

(** ** Python values, exceptions *)

Inductive value : Type :=
| VNaN                      (* float('nan'), pandas' missing value *)
| VInt (z : Z)              (* int / numpy.int64 *)
| VFloat (q : Q)            (* a finite float *)
| VStr (s : string)         (* str *)
| VTimestamp (ns : Z)       (* pandas.Timestamp, nanoseconds since the epoch *)
| VNaT.                     (* pandas.NaT *)

Inductive exn : Type :=
| KeyError (missing : list string)
| TypeError
| ValueError
| AttributeError
| OutOfBoundsDatetime.

Inductive result (A : Type) : Type :=
| Ok (a : A)
| Raise (e : exn).
Arguments Ok {A} a.
Arguments Raise {A} e.

Definition rbind {A B : Type} (r : result A) (k : A -> result B) : result B :=
  match r with
  | Ok a => k a
  | Raise e => Raise e
  end.

Declare Scope result_scope.
Delimit Scope result_scope with result.
Notation "x <- r ;; k" := (rbind r (fun x => k))
  (at level 100, r at next level, right associativity) : result_scope.

(** [Series.apply]: the function is called on the cells in order and the
    first exception aborts the call. *)
Fixpoint map_result {A B : Type} (f : A -> result B) (l : list A)
  : result (list B) :=
  match l with
  | [] => Ok []
  | x :: t =>
      (y <- f x ;; ys <- map_result f t ;; Ok (y :: ys))%result
  end.

(** ** Numbers *)

Definition Qltb (a b : Q) : bool := negb (Qle_bool b a).

(** The literal [0.1] of the source is the binary64 number
    0x1.999999999999ap-4 = 3602879701896397 / 2^55, slightly above one
    tenth; [-0.1] is its opposite. *)
Definition lit_0_1 : Q := 3602879701896397 # 36028797018963968.

(** Round half to even, to the nearest integer (C [rint]). *)
Definition rint (q : Q) : Z :=
  let f := Qfloor q in
  match Qcompare (q - inject_Z f) (1 # 2) with
  | Lt => f
  | Gt => (f + 1)%Z
  | Eq => if Z.even f then f else (f + 1)%Z
  end.

Definition pow10 (d : nat) : positive := Pos.pow 10 (Pos.of_nat d).

(** [round(x, d)] for [d >= 1]: scale by [10^d], round half to even,
    scale back. *)
Definition round_decimals (d : nat) (q : Q) : Q :=
  rint (q * inject_Z (Zpos (pow10 d))) # pow10 d.

(** Python's [x > c] and [x < c] for a float literal [c]. *)
Definition py_gt (x : value) (c : Q) : result bool :=
  match x with
  | VNaN => Ok false
  | VInt z => Ok (Qltb c (inject_Z z))
  | VFloat q => Ok (Qltb c q)
  | VStr _ | VTimestamp _ | VNaT => Raise TypeError
  end.

Definition py_lt (x : value) (c : Q) : result bool :=
  match x with
  | VNaN => Ok false
  | VInt z => Ok (Qltb (inject_Z z) c)
  | VFloat q => Ok (Qltb q c)
  | VStr _ | VTimestamp _ | VNaT => Raise TypeError
  end.

(** [round(x, d)] on a float. *)
Definition py_round (x : value) (d : nat) : result value :=
  match x with
  | VNaN => Ok VNaN
  | VInt z => Ok (VInt z)
  | VFloat q => Ok (VFloat (round_decimals d q))
  | VStr _ | VTimestamp _ | VNaT => Raise TypeError
  end.

(** ** Series and data frames *)

Inductive dtype : Type := int64 | float64 | object | datetime64.

Record Series : Type := mkSeries {
  s_dtype : dtype;
  s_values : list value
}.

(** A data frame: the length of its index and its columns in order. *)
Record DataFrame : Type := mkFrame {
  nrows : nat;
  columns : list (string * Series)
}.

(** Every column is as long as the index. *)
Definition wf_frame (df : DataFrame) : Prop :=
  Forall (fun c => length (s_values (snd c)) = nrows df) (columns df).

Definition len (df : DataFrame) : nat := nrows df.

Fixpoint lookup_col (name : string) (cols : list (string * Series))
  : option Series :=
  match cols with
  | [] => None
  | (k, s) :: t => if String.eqb k name then Some s else lookup_col name t
  end.

(** ['name' in df.columns] *)
Definition has_column (name : string) (df : DataFrame) : bool :=
  match lookup_col name (columns df) with
  | Some _ => true
  | None => false
  end.

(** [df['name']] *)
Definition getitem (df : DataFrame) (name : string) : result Series :=
  match lookup_col name (columns df) with
  | Some s => Ok s
  | None => Raise (KeyError [name])
  end.

Fixpoint set_col (name : string) (s : Series) (cols : list (string * Series))
  : list (string * Series) :=
  match cols with
  | [] => [(name, s)]
  | (k, s') :: t =>
      if String.eqb k name then (k, s) :: t else (k, s') :: set_col name s t
  end.

(** [df['name'] = s]: replaces the column, or appends it. *)
Definition setitem (df : DataFrame) (name : string) (s : Series) : DataFrame :=
  mkFrame (nrows df) (set_col name s (columns df)).

(** [df[[n1, ..., nk]]]: the listed columns in the listed order; the
    labels that are not columns are reported in one [KeyError]. *)
Definition getitem_list (df : DataFrame) (names : list string)
  : result DataFrame :=
  match filter (fun n => negb (has_column n df)) names with
  | [] =>
      Ok (mkFrame (nrows df)
            (flat_map (fun n => match lookup_col n (columns df) with
                                | Some s => [(n, s)]
                                | None => []
                                end) names))
  | missing => Raise (KeyError missing)
  end.

(** [df.head(n)] *)
Definition head (n : nat) (df : DataFrame) : DataFrame :=
  mkFrame (Nat.min n (nrows df))
    (map (fun c => (fst c, mkSeries (s_dtype (snd c)) (firstn n (s_values (snd c)))))
       (columns df)).

(** The dtype pandas infers for the result of [Series.apply]. *)
Definition is_int (v : value) : bool :=
  match v with VInt _ => true | _ => false end.
Definition is_number (v : value) : bool :=
  match v with VInt _ | VFloat _ | VNaN => true | _ => false end.
Definition is_datetime (v : value) : bool :=
  match v with VTimestamp _ | VNaT => true | _ => false end.

Definition infer_dtype (vs : list value) : dtype :=
  if forallb is_int vs then int64
  else if forallb is_number vs then float64
  else if forallb is_datetime vs then datetime64
  else object.

(** [s.apply(f)]: an empty series keeps its dtype. *)
Definition Series_apply (f : value -> result value) (s : Series)
  : result Series :=
  match s_values s with
  | [] => Ok (mkSeries (s_dtype s) [])
  | vs => (ys <- map_result f vs ;; Ok (mkSeries (infer_dtype ys) ys))%result
  end.

(** ** Counting and ranking *)

(** [pandas.notna] *)
Definition notna (v : value) : bool :=
  match v with
  | VNaN | VNaT => false
  | _ => true
  end.

(** Equality of index labels.  A column has one dtype, so labels of two
    kinds never meet; missing values are dropped before they are compared. *)
Definition value_eqb (a b : value) : bool :=
  match a, b with
  | VInt x, VInt y => Z.eqb x y
  | VFloat p, VFloat q => Qeq_bool p q
  | VStr s, VStr t => String.eqb s t
  | VTimestamp x, VTimestamp y => Z.eqb x y
  | _, _ => false
  end.

(** A series of counts indexed by label, as [value_counts] returns it. *)
Definition Counts : Type := list (value * nat).

Fixpoint tally_add (v : value) (acc : Counts) : Counts :=
  match acc with
  | [] => [(v, 1%nat)]
  | (k, c) :: t =>
      if value_eqb k v then (k, S c) :: t else (k, c) :: tally_add v t
  end.

(** Occurrences per label, labels in order of first appearance. *)
Definition tally (vs : list value) : Counts :=
  fold_left (fun acc v => tally_add v acc) vs [].

(** Stable sort by count, largest first. *)
Fixpoint insert_desc (x : value * nat) (l : Counts) : Counts :=
  match l with
  | [] => [x]
  | y :: t =>
      if Nat.leb (snd y) (snd x) then x :: y :: t else y :: insert_desc x t
  end.

Fixpoint sort_desc (l : Counts) : Counts :=
  match l with
  | [] => []
  | x :: t => insert_desc x (sort_desc t)
  end.

(** [s.value_counts()]: missing values dropped, most frequent first. *)
Definition value_counts (s : Series) : Counts :=
  sort_desc (tally (filter notna (s_values s))).

(** [c.nlargest(n)] with the default [keep='first']. *)
Definition nlargest (n : nat) (c : Counts) : Counts :=
  firstn n (sort_desc c).

(** [c.get(label)] *)
Fixpoint series_get {A : Type} (label : value) (c : list (value * A))
  : option A :=
  match c with
  | [] => None
  | (k, x) :: t => if value_eqb k label then Some x else series_get label t
  end.

(** ** Mean *)

(** Sum and number of the values that are not missing ([skipna=True]);
    text cannot be summed.  The script averages [Score] only, a column of
    the parsed file, which holds numbers or text and never dates: dates
    are put with text here. *)
Fixpoint nansum_count (vs : list value) : result (Q * nat) :=
  match vs with
  | [] => Ok (0, 0%nat)
  | v :: t =>
      (acc <- nansum_count t ;;
       match v with
       | VNaN => Ok acc
       | VInt z => Ok (inject_Z z + fst acc, S (snd acc))
       | VFloat q => Ok (q + fst acc, S (snd acc))
       | VStr _ | VTimestamp _ | VNaT => Raise TypeError
       end)%result
  end.

(** [s.mean()]: NaN when nothing is left to average. *)
Definition mean (s : Series) : result value :=
  (sc <- nansum_count (s_values s) ;;
   match snd sc with
   | O => Ok VNaN
   | S _ => Ok (VFloat (fst sc / inject_Z (Z.of_nat (snd sc))))
   end)%result.

(** ** Text of a value *)

Definition str_of_nat (n : nat) : string :=
  NilZero.string_of_uint (Nat.to_uint n).

Definition str_of_Z (z : Z) : string :=
  NilZero.string_of_int (Z.to_int z).

(** ** Collaborators *)

(** What the script obtains from outside: the sentiment scorer, the
    textual form of floats and timestamps, the conversion of fractional
    UNIX seconds and the calendar month of an instant. *)
Class Collaborators : Type := {
  polarity : string -> Q;        (* TextBlob(text).sentiment.polarity *)
  float_repr : Q -> string;      (* str(x) of a finite float *)
  timestamp_repr : Z -> string;  (* str(t) of a Timestamp *)
  seconds_to_ns : Q -> Z;        (* to_datetime(x, unit='s') on a float *)
  month_of : Z -> Z              (* t.to_period('M'), as a month ordinal *)
}.

(** ** The script *)

(** What the page shows, in the order of the calls. *)
Record Trend : Type := mkTrend {
  trend_columns : list value;     (* the sentiment labels met, sorted *)
  trend_index : list Z;           (* the months met, sorted *)
  trend_cells : list (list nat)   (* one row of counts per month *)
}.

Inductive figure : Type :=
| px_pie (names : list value) (values : list nat)
| px_histogram (x color : Series) (nbins : nat)
| px_line (trend : Trend)
| px_bar (x : list nat) (y : list value).

Inductive widget : Type :=
| st_title (body : string)
| st_sidebar_header (body : string)
| st_sidebar_file_uploader (label : string)
| st_expander (label : string)
| st_success (body : string)
| st_info (body : string)
| st_subheader (body : string)
| st_markdown (body : string)
| st_write (body : string)
| st_dataframe (data : DataFrame)
| st_metric (label : string) (v : value)
| st_plotly_chart (fig : figure).

(** A run of the script: the widgets rendered so far and either a value
    or the exception that stopped it. *)
Definition app (A : Type) : Type := (list widget * result A)%type.

Definition app_ret {A : Type} (a : A) : app A := ([], Ok a).

Definition app_bind {A B : Type} (m : app A) (k : A -> app B) : app B :=
  match m with
  | (shown, Ok a) => let (more, r) := k a in (shown ++ more, r)
  | (shown, Raise e) => (shown, Raise e)
  end.

Definition emit (w : widget) : app unit := ([w], Ok tt).

Definition lift {A : Type} (r : result A) : app A := ([], r).

Declare Scope app_scope.
Delimit Scope app_scope with app.
Notation "x <- m ;; k" := (app_bind m (fun x => k))
  (at level 100, m at next level, right associativity) : app_scope.
Notation "m ;; k" := (app_bind m (fun _ => k))
  (at level 100, right associativity) : app_scope.

(** The aggregates of the "Summary Metrics" block. *)
Record Summary : Type := mkSummary {
  total_reviews : nat;
  avg_rating : value;
  sentiment_counts : Counts;
  sentiment_pct : list (value * Q)
}.

(** [(counts / total * 100).round(1)].  The division is reached only for
    a label that was counted, hence with at least one row (see
    [counted_label_has_rows]). *)
Definition pct_of (counts : Counts) (total : nat) : list (value * Q) :=
  map (fun e =>
         (fst e,
          round_decimals 1
            (inject_Z (Z.of_nat (snd e)) / inject_Z (Z.of_nat total)
             * inject_Z 100)))
    counts.

(** [pct.get(label, 0)] *)
Definition pct_get (label : string) (pct : list (value * Q)) : value :=
  match series_get (VStr label) pct with
  | Some q => VFloat q
  | None => VInt 0
  end.

Definition int64_ns (ns : Z) : bool :=
  ((- 2 ^ 63 <? ns) && (ns <? 2 ^ 63))%Z.

Fixpoint insert_by {A : Type} (leb : A -> A -> bool) (x : A) (l : list A)
  : list A :=
  match l with
  | [] => [x]
  | y :: t => if leb x y then x :: y :: t else y :: insert_by leb x t
  end.

Definition sort_by {A : Type} (leb : A -> A -> bool) (l : list A) : list A :=
  fold_right (insert_by leb) [] l.

Fixpoint distinct {A : Type} (eqb : A -> A -> bool) (l : list A) : list A :=
  match l with
  | [] => []
  | x :: t =>
      x :: filter (fun y => negb (eqb x y)) (distinct eqb t)
  end.

Definition value_leb (a b : value) : bool :=
  match a, b with
  | VStr s, VStr t => String.leb s t
  | VInt x, VInt y => Z.leb x y
  | VFloat p, VFloat q => Qle_bool p q
  | VTimestamp x, VTimestamp y => Z.leb x y
  | _, _ => true
  end.

Section Script.

Context {ext : Collaborators}.

(** [str(x)] *)
Definition py_str (x : value) : string :=
  match x with
  | VNaN => "nan"
  | VInt z => str_of_Z z
  | VFloat q => float_repr q
  | VStr s => s
  | VTimestamp ns => timestamp_repr ns
  | VNaT => "NaT"
  end.

(** [pd.to_datetime(s, unit='s')] *)
Definition to_datetime_cell (v : value) : result value :=
  match v with
  | VNaN | VNaT => Ok VNaT
  | VInt s =>
      let ns := (s * 1000000000)%Z in
      if int64_ns ns then Ok (VTimestamp ns) else Raise OutOfBoundsDatetime
  | VFloat q =>
      let ns := seconds_to_ns q in
      if int64_ns ns then Ok (VTimestamp ns) else Raise OutOfBoundsDatetime
  | VStr _ => Raise ValueError
  | VTimestamp ns => Ok (VTimestamp ns)
  end.

Definition to_datetime (s : Series) : result Series :=
  (ys <- map_result to_datetime_cell (s_values s) ;;
   Ok (mkSeries datetime64 ys))%result.

(** [s.dt.to_period('M')]: only a datetime column has the accessor. *)
Definition dt_to_period_M (s : Series) : result (list (option Z)) :=
  match s_dtype s with
  | datetime64 =>
      Ok (map (fun v => match v with
                        | VTimestamp ns => Some (month_of ns)
                        | _ => None
                        end) (s_values s))
  | _ => Raise AttributeError
  end.

(** [df.groupby([months, 'sentiment']).size().unstack(fill_value=0)]:
    rows with a missing key are left out. *)
Definition group_keys (months : list (option Z)) (labels : list value)
  : list (Z * value) :=
  flat_map (fun p => match fst p with
                     | Some m => if notna (snd p) then [(m, snd p)] else []
                     | None => []
                     end) (combine months labels).

Definition size_unstack (months : list (option Z)) (labels : list value)
  : Trend :=
  let keys := group_keys months labels in
  let ms := sort_by Z.leb (distinct Z.eqb (map fst keys)) in
  let ls := sort_by value_leb (distinct value_eqb (map snd keys)) in
  mkTrend ls ms
    (map (fun m =>
            map (fun l =>
                   List.length
                     (filter (fun k => Z.eqb (fst k) m && value_eqb (snd k) l)
                        keys)) ls) ms).

(** Line 39: [lambda x: TextBlob(str(x)).sentiment.polarity] *)
Definition score_lambda (x : value) : result value :=
  Ok (VFloat (polarity (py_str x))).

(** Line 41: ['Positive' if x > 0.1 else ('Negative' if x < -0.1 else 'Neutral')] *)
Definition label_lambda (x : value) : result value :=
  (p <- py_gt x lit_0_1 ;;
   if p then Ok (VStr "Positive")
   else (n <- py_lt x (- lit_0_1) ;;
         if n then Ok (VStr "Negative") else Ok (VStr "Neutral")))%result.

(** Lines 39-42: the two derived columns. *)
Definition generate_sentiment (df : DataFrame) : result DataFrame :=
  (text <- getitem df "Text" ;;
   score <- Series_apply score_lambda text ;;
   let df := setitem df "sentiment_score" score in
   score <- getitem df "sentiment_score" ;;
   label <- Series_apply label_lambda score ;;
   Ok (setitem df "sentiment" label))%result.

(** Lines 49-52. *)
Definition summary_metrics (df : DataFrame) : result Summary :=
  (let total_reviews := len df in
   score <- getitem df "Score" ;;
   m <- mean score ;;
   avg_rating <- py_round m 2 ;;
   sentiment <- getitem df "sentiment" ;;
   let sentiment_counts := value_counts sentiment in
   let sentiment_pct := pct_of sentiment_counts total_reviews in
   Ok (mkSummary total_reviews avg_rating sentiment_counts sentiment_pct))%result.

(** Line 92: the table under "Recent Reviews". *)
Definition recent_reviews (df : DataFrame) : result DataFrame :=
  (sub <- getitem_list df ["Summary"; "Text"; "sentiment"; "Score"; "date"] ;;
   Ok (head 10 sub))%result.

(** Line 117. *)
Definition top_users (df : DataFrame) : result Counts :=
  (names <- getitem df "ProfileName" ;;
   Ok (nlargest 10 (value_counts names)))%result.

(** Lines 103-104. *)
Definition trend (df : DataFrame) : result Trend :=
  (date <- getitem df "date" ;;
   months <- dt_to_period_M date ;;
   sentiment <- getitem df "sentiment" ;;
   Ok (size_unstack months (s_values sentiment)))%result.

Definition no_time_message : string :=
  " No 'Time' column found for trend visualization.".

(** Lines 34-35: the [date] column, when there is a [Time] column. *)
Definition convert_time (df : DataFrame) : result DataFrame :=
  if has_column "Time" df
  then (time <- getitem df "Time" ;;
        date <- to_datetime time ;;
        Ok (setitem df "date" date))%result
  else Ok df.

(** Lines 27-42, "Load and process data". *)
Definition load_and_annotate (df : DataFrame) : app DataFrame :=
  (emit (st_success (" Loaded " ++ str_of_nat (len df) ++ " reviews")) ;;
   emit (st_expander " Data Preview") ;;
   emit (st_dataframe (head 10 df)) ;;
   df <- lift (convert_time df) ;;
   emit (st_info " Analyzing sentiment of reviews... please wait a few seconds") ;;
   lift (generate_sentiment df))%app.

(** Lines 47-58, "Summary Metrics". *)
Definition show_summary (df : DataFrame) : app Summary :=
  (emit (st_subheader " Summary Metrics") ;;
   m <- lift (summary_metrics df) ;;
   emit (st_metric "Total Reviews" (VInt (Z.of_nat (total_reviews m)))) ;;
   emit (st_metric "Average Rating" (avg_rating m)) ;;
   emit (st_metric "Positive (%)"
           (VStr (py_str (pct_get "Positive" (sentiment_pct m)) ++ "%"))) ;;
   emit (st_metric "Negative (%)"
           (VStr (py_str (pct_get "Negative" (sentiment_pct m)) ++ "%"))) ;;
   app_ret m)%app.

(** Lines 63-92, "Dashboard Layout": pie chart, rating histogram and the
    table of recent reviews. *)
Definition show_dashboard (df : DataFrame) (m : Summary) : app unit :=
  (emit (st_markdown "---") ;;
   emit (st_plotly_chart
           (px_pie (map fst (sentiment_counts m)) (map snd (sentiment_counts m)))) ;;
   x <- lift (getitem df "Score") ;;
   color <- lift (getitem df "sentiment") ;;
   emit (st_plotly_chart (px_histogram x color 5)) ;;
   emit (st_write " **Recent Reviews**") ;;
   recent <- lift (recent_reviews df) ;;
   emit (st_dataframe recent))%app.

(** Lines 97-126, "Trend Section": the monthly trend, or a message when
    there is no date, and the most common reviewers. *)
Definition show_trends (df : DataFrame) : app unit :=
  (emit (st_markdown "---") ;;
   (if has_column "date" df
    then (t <- lift (trend df) ;; emit (st_plotly_chart (px_line t)))
    else emit (st_info no_time_message)) ;;
   top <- lift (top_users df) ;;
   emit (st_plotly_chart (px_bar (map snd top) (map fst top))))%app.

(** Lines 26-126: what happens once a file has been uploaded and parsed
    into [df]. *)
Definition process (df : DataFrame) : app unit :=
  (df <- load_and_annotate df ;;
   m <- show_summary df ;;
   show_dashboard df m ;;
   show_trends df)%app.

(** The whole script; [uploaded_file] is the parsed upload, if any. *)
Definition main (uploaded_file : option DataFrame) : app unit :=
  (emit (st_title " Amazon Customer Feedback Dashboard") ;;
   emit (st_sidebar_header " Upload & Settings") ;;
   emit (st_sidebar_file_uploader "Upload your Amazon reviews CSV file") ;;
   match uploaded_file with
   | Some df => process df
   | None =>
       emit (st_info " Upload your Amazon reviews CSV in the sidebar to begin.")
   end)%app.

End Script.

(** ** Vocabulary of the properties *)

(** The three sentiment labels. *)
Inductive Sentiment : Type := Positive | Negative | Neutral.

Definition label_name (l : Sentiment) : string :=
  match l with
  | Positive => "Positive"
  | Negative => "Negative"
  | Neutral => "Neutral"
  end.

(** The label the thresholds give to a polarity score, read off
    [label_lambda]. *)
Definition classify (s : Q) : Sentiment :=
  if Qltb lit_0_1 s then Positive
  else if Qltb s (- lit_0_1) then Negative
  else Neutral.

Definition is_label (v : value) : Prop :=
  exists l : Sentiment, v = VStr (label_name l).

(** [counts.get(label, 0)] *)
Definition count_at (label : value) (c : Counts) : nat :=
  match series_get label c with
  | Some n => n
  | None => 0%nat
  end.

Definition counts_get (label : string) (c : Counts) : nat :=
  count_at (VStr label) c.

(** No two entries of a series of counts carry the same label. *)
Fixpoint fresh_keys (c : Counts) : Prop :=
  match c with
  | [] => True
  | e :: t =>
      Forall (fun e' => value_eqb (fst e) (fst e') = false) t /\ fresh_keys t
  end.

Definition total_count (c : Counts) : nat := list_sum (map snd c).

(** Number of cells of a column equal to a label. *)
Definition occurrences (v : value) (vs : list value) : nat :=
  List.length (filter (fun x => value_eqb x v) vs).





(** The cells of a column of a frame, [[]] when there is no such column. *)
Definition column_values (df : DataFrame) (name : string) : list value :=
  match lookup_col name (columns df) with
  | Some s => s_values s
  | None => []
  end.

(** The largest instant of a list of cells. *)
Definition latest (vs : list value) : option Z :=
  fold_right (fun v acc =>
                match v, acc with
                | VTimestamp t, Some m => Some (Z.max t m)
                | VTimestamp t, None => Some t
                | _, _ => acc
                end) None vs.

(** ** Stand-ins for the collaborators and sample uploads *)

(** Month ordinal ([12 * year + month - 1]) of an instant, proleptic
    Gregorian calendar. *)
Definition month_ordinal (ns : Z) : Z :=
  let days := (ns / 86400000000000)%Z in
  let z := (days + 719468)%Z in
  let era := (z / 146097)%Z in
  let doe := (z - era * 146097)%Z in
  let yoe := ((doe - doe / 1460 + doe / 36524 - doe / 146096) / 365)%Z in
  let doy := (doe - (365 * yoe + yoe / 4 - yoe / 100))%Z in
  let mp := ((5 * doy + 2) / 153)%Z in
  let m := (if (mp <? 10)%Z then mp + 3 else mp - 9)%Z in
  let y := (yoe + era * 400 + (if (m <=? 2)%Z then 1 else 0))%Z in
  (12 * y + m - 1)%Z.

(** Prints a number that has at most two decimals. *)
Definition two_decimal_repr (q : Q) : string :=
  let h := rint (q * inject_Z 100) in
  let a := Z.abs h in
  let frac := (a mod 100)%Z in
  (if (h <? 0)%Z then "-" else "")
  ++ str_of_Z (a / 100) ++ "."
  ++ (if (frac mod 10 =? 0)%Z then str_of_Z (frac / 10)
      else if (frac <? 10)%Z then "0" ++ str_of_Z frac
      else str_of_Z frac).

(** A three-phrase lexicon standing in for the scorer. *)
Definition sample_polarity (text : string) : Q :=
  if String.eqb text "great product" then 4 # 5
  else if String.eqb text "terrible, awful" then - (1)
  else 0.

Definition sample_ext : Collaborators := {|
  polarity := sample_polarity;
  float_repr := two_decimal_repr;
  timestamp_repr := fun ns => (str_of_Z ns ++ "ns")%string;
  seconds_to_ns := fun q => rint (q * inject_Z 1000000000);
  month_of := month_ordinal
|}.

Definition strs (l : list string) : Series := mkSeries object (map VStr l).
Definition ints (l : list Z) : Series := mkSeries int64 (map VInt l).

(** Three reviews with every column the script reads. *)
Definition three_reviews : DataFrame :=
  mkFrame 3
    [("ProfileName", strs ["ann"; "bob"; "ann"]);
     ("Score", ints [5; 1; 3]%Z);
     ("Time", ints [1303862400; 1346976000; 1219017600]%Z);
     ("Summary", strs ["Good"; "Bad"; "Fine"]);
     ("Text", strs ["great product"; "terrible, awful"; "it arrived"])].

(** The same upload without its [Time] column. *)
Definition reviews_without_time : DataFrame :=
  mkFrame 3
    [("ProfileName", strs ["ann"; "bob"; "ann"]);
     ("Score", ints [5; 1; 3]%Z);
     ("Summary", strs ["Good"; "Bad"; "Fine"]);
     ("Text", strs ["great product"; "terrible, awful"; "it arrived"])].

(** A header and no data row: every column is empty, of dtype object. *)
Definition empty_reviews : DataFrame :=
  mkFrame 0
    [("ProfileName", strs []); ("Score", strs []); ("Time", strs []);
     ("Summary", strs []); ("Text", strs [])].

(** Eleven reviews, one a day, the oldest first. *)
Definition day (n : Z) : Z := (1300000000 + 86400 * n)%Z.

Definition eleven_days : list Z := map day [0; 1; 2; 3; 4; 5; 6; 7; 8; 9; 10]%Z.

Definition reviews_oldest_first : DataFrame :=
  mkFrame 11
    [("ProfileName", strs (repeat "ann" 11));
     ("Score", ints (repeat 4%Z 11));
     ("Time", ints eleven_days);
     ("Summary", strs (repeat "Fine" 11));
     ("Text", strs (repeat "it arrived" 11))].

(** A column with a missing text, as the parser leaves an empty field. *)
Definition reviews_with_blank_text : DataFrame :=
  mkFrame 2
    [("Score", ints [4; 2]%Z);
     ("Text", mkSeries object [VStr "great product"; VNaN])].


(** The score and the label of a row, as functions of its text cell. *)
Definition score_of {ext : Collaborators} (x : value) : Q :=
  polarity (py_str x).

Definition label_of {ext : Collaborators} (x : value) : Sentiment :=
  classify (score_of x).



(** The annotation of a row computed from its text cell alone, and the
    annotation found in row [i] of an annotated frame. *)
Definition annotation_of {ext : Collaborators} (x : value) : value * value :=
  (VFloat (score_of x), VStr (label_name (label_of x))).

Definition annotation_at (df : DataFrame) (i : nat) : option (value * value) :=
  match nth_error (column_values df "sentiment_score") i,
        nth_error (column_values df "sentiment") i with
  | Some s, Some l => Some (s, l)
  | _, _ => None
  end.

(** The rows of an annotated frame: text, score and label. *)
Definition annotated_rows (df : DataFrame) : list (value * (value * value)) :=
  combine (column_values df "Text")
    (combine (column_values df "sentiment_score")
       (column_values df "sentiment")).

(** The message of line 113 is among the widgets shown. *)
Definition shows_fallback (shown : list widget) : Prop :=
  In (st_info no_time_message) shown.


(** ** Vocabulary of the further properties *)

(** The prompt of line 129. *)
Definition upload_prompt : string :=
  " Upload your Amazon reviews CSV in the sidebar to begin.".

Definition analysing_message : string :=
  " Analyzing sentiment of reviews... please wait a few seconds".

(** What is on the page whatever the upload: title, sidebar, and for an
    upload [df] the success line and the preview of the raw rows. *)
Definition page_top : list widget :=
  [st_title " Amazon Customer Feedback Dashboard";
   st_sidebar_header " Upload & Settings";
   st_sidebar_file_uploader "Upload your Amazon reviews CSV file"].

Definition upload_top (df : DataFrame) : list widget :=
  page_top
  ++ [st_success (" Loaded " ++ str_of_nat (len df) ++ " reviews");
      st_expander " Data Preview";
      st_dataframe (head 10 df)].

(** The names of the columns of a frame, in order. *)
Definition column_names (df : DataFrame) : list string :=
  map fst (columns df).


(** The UNIX seconds that fit a nanosecond timestamp of 64 bits. *)
Definition timestamp_seconds (s : Z) : Prop :=
  (- 9223372036 <= s <= 9223372036)%Z.

(** The instant [pd.to_datetime(s, unit='s')] gives for whole seconds. *)
Definition date_of_seconds (s : Z) : value := VTimestamp (s * 1000000000).



(** Further sample uploads: [three_reviews] without one of its columns,
    with a word among the ratings, with a second beyond the timestamps. *)
Definition reviews_without_text : DataFrame :=
  mkFrame 3
    [("ProfileName", strs ["ann"; "bob"; "ann"]);
     ("Score", ints [5; 1; 3]%Z);
     ("Time", ints [1303862400; 1346976000; 1219017600]%Z);
     ("Summary", strs ["Good"; "Bad"; "Fine"])].

Definition reviews_without_score : DataFrame :=
  mkFrame 3
    [("ProfileName", strs ["ann"; "bob"; "ann"]);
     ("Time", ints [1303862400; 1346976000; 1219017600]%Z);
     ("Summary", strs ["Good"; "Bad"; "Fine"]);
     ("Text", strs ["great product"; "terrible, awful"; "it arrived"])].

Definition reviews_with_a_word_as_score : DataFrame :=
  mkFrame 3
    [("ProfileName", strs ["ann"; "bob"; "ann"]);
     ("Score", strs ["5"; "one"; "3"]);
     ("Time", ints [1303862400; 1346976000; 1219017600]%Z);
     ("Summary", strs ["Good"; "Bad"; "Fine"]);
     ("Text", strs ["great product"; "terrible, awful"; "it arrived"])].



(** The dates of [three_reviews]. *)
Definition three_dates : Series :=
  mkSeries datetime64
    (map date_of_seconds [1303862400; 1346976000; 1219017600]%Z).

(** ** Proof steps *)

(** Unfolds the run of a block of the script down to its widgets. *)
Ltac run_block := unfold app_bind, emit, lift, app_ret.

(** Closes a goal saying that the message of line 113 is not among some
    listed widgets. *)
Ltac no_fallback := simpl; unfold no_time_message; intuition discriminate.

(** Sorts out which [st.info] a listed widget is. *)
Ltac pick_info :=
  repeat match goal with
         | H : _ \/ _ |- _ => destruct H
         | H : False |- _ => contradiction
         | H : In _ [] |- _ => contradiction
         | H : st_info _ = st_info _ |- _ => injection H as <-; auto
         | H : _ = st_info _ |- _ => discriminate H
         end.

(** * Properties *)

(** ** Columns of a frame *)

Lemma lookup_set_col_same (name : string) (s : Series) cols :
  lookup_col name (set_col name s cols) = Some s.
Proof.
  induction cols as [|[k s'] t IH]; simpl.
  - now rewrite String.eqb_refl.
  - destruct (String.eqb k name) eqn:E; simpl; rewrite E; auto.
Qed.

Lemma lookup_set_col_other (name other : string) (s : Series) cols :
  name <> other ->
  lookup_col other (set_col name s cols) = lookup_col other cols.
Proof.
  intros Hne. induction cols as [|[k s'] t IH]; simpl.
  - destruct (String.eqb name other) eqn:E; auto.
    apply String.eqb_eq in E. contradiction.
  - destruct (String.eqb k name) eqn:E; simpl.
    + apply String.eqb_eq in E; subst k.
      destruct (String.eqb name other) eqn:E'; auto.
      apply String.eqb_eq in E'. contradiction.
    + now rewrite IH.
Qed.

Lemma getitem_setitem_same df name s :
  getitem (setitem df name s) name = Ok s.
Proof. unfold getitem, setitem; simpl. now rewrite lookup_set_col_same. Qed.

Lemma getitem_setitem_other df name other s :
  name <> other ->
  getitem (setitem df name s) other = getitem df other.
Proof.
  intros H. unfold getitem, setitem; simpl.
  now rewrite lookup_set_col_other.
Qed.

Lemma has_column_setitem_other df name other s :
  name <> other ->
  has_column other (setitem df name s) = has_column other df.
Proof.
  intros H. unfold has_column, setitem; simpl.
  now rewrite lookup_set_col_other.
Qed.

Lemma has_column_setitem_same df name s :
  has_column name (setitem df name s) = true.
Proof. unfold has_column, setitem; simpl. now rewrite lookup_set_col_same. Qed.

Lemma getitem_Ok_lookup df name s :
  getitem df name = Ok s <-> lookup_col name (columns df) = Some s.
Proof.
  unfold getitem. destruct (lookup_col name (columns df)); split; congruence.
Qed.

Lemma getitem_has_column df name s :
  getitem df name = Ok s -> has_column name df = true.
Proof.
  unfold getitem, has_column. destruct (lookup_col name (columns df)); congruence.
Qed.

Lemma has_column_getitem df name :
  has_column name df = true -> exists s, getitem df name = Ok s.
Proof.
  unfold getitem, has_column. destruct (lookup_col name (columns df)) as [s|].
  - now exists s.
  - discriminate.
Qed.

Lemma getitem_no_column df name :
  has_column name df = false -> getitem df name = Raise (KeyError [name]).
Proof.
  unfold getitem, has_column. destruct (lookup_col name (columns df)); congruence.
Qed.

Lemma lookup_col_In name cols s :
  lookup_col name cols = Some s -> In (name, s) cols.
Proof.
  induction cols as [|[k s'] t IH]; simpl; [discriminate|].
  destruct (String.eqb k name) eqn:E.
  - apply String.eqb_eq in E. intros [= ->]. subst. now left.
  - intros H. right. auto.
Qed.

Lemma wf_column_length df name s :
  wf_frame df -> getitem df name = Ok s -> List.length (s_values s) = nrows df.
Proof.
  intros Hwf H. apply getitem_Ok_lookup, lookup_col_In in H.
  unfold wf_frame in Hwf. rewrite Forall_forall in Hwf.
  exact (Hwf _ H).
Qed.

(** ** [Series.apply] with a function that does not raise *)

Lemma map_result_total {A B : Type} (f : A -> result B) (g : A -> B) l :
  (forall x, In x l -> f x = Ok (g x)) ->
  map_result f l = Ok (map g l).
Proof.
  induction l as [|x t IH]; intros H; simpl; auto.
  rewrite (H x (or_introl eq_refl)). simpl.
  rewrite IH by (intros; apply H; now right). reflexivity.
Qed.

Lemma Series_apply_total f (g : value -> value) s :
  (forall x, In x (s_values s) -> f x = Ok (g x)) ->
  exists d, Series_apply f s = Ok (mkSeries d (map g (s_values s))).
Proof.
  intros H. unfold Series_apply.
  destruct (s_values s) as [|v t] eqn:E.
  - now exists (s_dtype s).
  - rewrite (map_result_total f g) by exact H. simpl. eauto.
Qed.

(** ** Comparisons *)

Lemma Qltb_lt (a b : Q) : Qltb a b = true <-> a < b.
Proof.
  unfold Qltb. rewrite negb_true_iff, <- not_true_iff_false, Qle_bool_iff.
  split; [apply Qnot_le_lt | apply Qlt_not_le].
Qed.

Lemma Qltb_nlt (a b : Q) : Qltb a b = false <-> ~ a < b.
Proof.
  rewrite <- Qltb_lt. destruct (Qltb a b); split; congruence.
Qed.

(** [lit_0_1] is the binary64 number the literal [0.1] denotes. *)
Section Binary64.

Import PrimFloat FloatOps SpecFloat.
#[local] Set Warnings "-inexact-float".

Example lit_0_1_binary64 :
  Prim2SF 0.1%float = S754_finite false 7205759403792794 (-56)
  /\ 7205759403792794 # 2 ^ 56 == lit_0_1.
Proof. split; reflexivity. Qed.

End Binary64.

Lemma lit_0_1_pos : 0 < lit_0_1.
Proof. reflexivity. Qed.

(** The thresholds on a score, case by case. *)
Lemma classify_thresholds (s : Q) :
  (lit_0_1 < s -> classify s = Positive)
  /\ (s < - lit_0_1 -> classify s = Negative)
  /\ (~ lit_0_1 < s -> ~ s < - lit_0_1 -> classify s = Neutral).
Proof.
  unfold classify. repeat split.
  - intros H. apply Qltb_lt in H. now rewrite H.
  - intros H.
    assert (Hn : ~ lit_0_1 < s).
    { intros H'. pose proof lit_0_1_pos. lra. }
    apply Qltb_nlt in Hn. apply Qltb_lt in H. now rewrite Hn, H.
  - intros H1 H2. apply Qltb_nlt in H1, H2. now rewrite H1, H2.
Qed.

Section Annotation.

Context {ext : Collaborators}.

Lemma label_lambda_float (s : Q) :
  label_lambda (VFloat s) = Ok (VStr (label_name (classify s))).
Proof.
  unfold label_lambda, classify; simpl.
  destruct (Qltb lit_0_1 s); simpl; auto.
  destruct (Qltb s (- lit_0_1)); reflexivity.
Qed.

(** A missing score compares false with both thresholds. *)
Lemma label_lambda_nan : label_lambda VNaN = Ok (VStr "Neutral").
Proof. reflexivity. Qed.

(** The annotation never raises once the text column is there, and both
    new columns are computed cell by cell from the text. *)
Lemma generate_sentiment_columns df text :
  getitem df "Text" = Ok text ->
  exists d1 d2,
    generate_sentiment df =
    Ok (setitem
          (setitem df "sentiment_score"
             (mkSeries d1 (map (fun x => VFloat (score_of x)) (s_values text))))
          "sentiment"
          (mkSeries d2
             (map (fun x => VStr (label_name (label_of x))) (s_values text)))).
Proof.
  intros Ht. unfold generate_sentiment. rewrite Ht; simpl.
  destruct (Series_apply_total score_lambda (fun x => VFloat (score_of x)) text)
    as [d1 E1]; [reflexivity|].
  rewrite E1; simpl. rewrite getitem_setitem_same; simpl.
  set (sc := mkSeries d1 _).
  destruct (Series_apply_total label_lambda
              (fun v => match v with
                        | VFloat s => VStr (label_name (classify s))
                        | _ => v
                        end) sc) as [d2 E2].
  { intros x Hx. unfold sc in Hx; simpl in Hx.
    apply in_map_iff in Hx. destruct Hx as [y [<- _]].
    apply label_lambda_float. }
  rewrite E2; simpl. exists d1, d2. unfold sc; simpl.
  now rewrite map_map.
Qed.

Lemma generate_sentiment_missing_text df :
  has_column "Text" df = false ->
  generate_sentiment df = Raise (KeyError ["Text"]).
Proof.
  intros H. unfold generate_sentiment.
  now rewrite (getitem_no_column _ _ H).
Qed.

(** Reading the two columns back from the annotated frame. *)
Lemma annotated_columns df df' text :
  getitem df "Text" = Ok text ->
  generate_sentiment df = Ok df' ->
  exists d1 d2,
    getitem df' "sentiment_score"
    = Ok (mkSeries d1 (map (fun x => VFloat (score_of x)) (s_values text)))
    /\ getitem df' "sentiment"
       = Ok (mkSeries d2
               (map (fun x => VStr (label_name (label_of x))) (s_values text)))
    /\ nrows df' = nrows df
    /\ (forall name, name <> "sentiment_score" -> name <> "sentiment" ->
                     getitem df' name = getitem df name).
Proof.
  intros Ht Hg.
  destruct (generate_sentiment_columns df text Ht) as [d1 [d2 E]].
  rewrite E in Hg. injection Hg as <-.
  exists d1, d2. repeat split.
  - rewrite getitem_setitem_other by discriminate.
    apply getitem_setitem_same.
  - apply getitem_setitem_same.
  - intros name H1 H2.
    rewrite getitem_setitem_other by congruence.
    now rewrite getitem_setitem_other by congruence.
Qed.

Lemma generate_sentiment_text df df' :
  generate_sentiment df = Ok df' -> exists text, getitem df "Text" = Ok text.
Proof.
  unfold generate_sentiment. destruct (getitem df "Text") as [t|e]; simpl.
  - eauto.
  - discriminate.
Qed.

(** C1. In every annotated row the label follows from the polarity score
    by the fixed thresholds: above 0.1 it is Positive, below -0.1 it is
    Negative, and Neutral otherwise (0.1 being the binary64 literal of the
    source). *)
Theorem sentiment_label_by_thresholds :
  forall df df' scores labels i x,
    generate_sentiment df = Ok df' ->
    getitem df' "sentiment_score" = Ok scores ->
    getitem df' "sentiment" = Ok labels ->
    nth_error (s_values scores) i = Some x ->
    exists (s : Q) (l : Sentiment),
      x = VFloat s
      /\ nth_error (s_values labels) i = Some (VStr (label_name l))
      /\ (lit_0_1 < s -> l = Positive)
      /\ (s < - lit_0_1 -> l = Negative)
      /\ (~ lit_0_1 < s -> ~ s < - lit_0_1 -> l = Neutral).
Proof.
  intros df df' scores labels i x Hg Hs Hl Hx.
  destruct (generate_sentiment_text _ _ Hg) as [text Ht].
  destruct (annotated_columns _ _ _ Ht Hg) as [d1 [d2 [E1 [E2 _]]]].
  rewrite E1 in Hs. injection Hs as <-.
  rewrite E2 in Hl. injection Hl as <-.
  simpl in *. rewrite nth_error_map in Hx |- *.
  destruct (nth_error (s_values text) i) as [c|]; simpl in *; [|discriminate].
  injection Hx as <-.
  exists (score_of c), (label_of c). split; [reflexivity|].
  split; [reflexivity|]. apply classify_thresholds.
Qed.

End Annotation.

(** ** Equality of labels *)

Lemma Qeq_bool_sym (p q : Q) : Qeq_bool p q = Qeq_bool q p.
Proof.
  destruct (Qeq_bool p q) eqn:E1, (Qeq_bool q p) eqn:E2; auto.
  - apply Qeq_bool_iff in E1. symmetry in E1.
    apply Qeq_bool_iff in E1. congruence.
  - apply Qeq_bool_iff in E2. symmetry in E2.
    apply Qeq_bool_iff in E2. congruence.
Qed.

Lemma value_eqb_sym (a b : value) : value_eqb a b = value_eqb b a.
Proof.
  destruct a, b; simpl; auto using Z.eqb_sym, Qeq_bool_sym, String.eqb_sym.
Qed.

Lemma value_eqb_trans (a b c : value) :
  value_eqb a b = true -> value_eqb b c = true -> value_eqb a c = true.
Proof.
  destruct a, b; simpl; try discriminate; destruct c; simpl; try discriminate.
  - rewrite !Z.eqb_eq. congruence.
  - rewrite !Qeq_bool_iff. intros H1 H2. now rewrite H1.
  - rewrite !String.eqb_eq. congruence.
  - rewrite !Z.eqb_eq. congruence.
Qed.

Lemma value_eqb_refl (a : value) : notna a = true -> value_eqb a a = true.
Proof.
  destruct a; simpl; try discriminate; intros _.
  - apply Z.eqb_refl.
  - apply Qeq_bool_iff. reflexivity.
  - apply String.eqb_refl.
  - apply Z.eqb_refl.
Qed.

(** Two labels equal to a third one, or not, together. *)
Lemma value_eqb_congr (a b c : value) :
  value_eqb a b = true -> value_eqb c a = value_eqb c b.
Proof.
  intros H.
  destruct (value_eqb c a) eqn:E1, (value_eqb c b) eqn:E2; auto.
  - rewrite (value_eqb_trans c a b E1 H) in E2. discriminate.
  - rewrite value_eqb_sym in H.
    rewrite (value_eqb_trans c b a E2 H) in E1. discriminate.
Qed.

(** ** Counting: [tally], [sort_desc], [value_counts] *)

Lemma value_eqb_congr_l (a b c : value) :
  value_eqb a b = true -> value_eqb a c = value_eqb b c.
Proof.
  intros H. rewrite (value_eqb_sym a c), (value_eqb_sym b c).
  now apply value_eqb_congr.
Qed.

Lemma count_at_cons (x k : value) (c : nat) (t : Counts) :
  count_at x ((k, c) :: t) = if value_eqb k x then c else count_at x t.
Proof. unfold count_at; simpl. now destruct (value_eqb k x). Qed.

Lemma count_at_tally_add (x v : value) (acc : Counts) :
  count_at x (tally_add v acc)
  = if value_eqb v x then S (count_at x acc) else count_at x acc.
Proof.
  induction acc as [|[k c] t IH]; simpl.
  - rewrite count_at_cons. now destruct (value_eqb v x).
  - destruct (value_eqb k v) eqn:Ekv; rewrite !count_at_cons.
    + rewrite (value_eqb_congr_l k v x Ekv).
      now destruct (value_eqb v x).
    + rewrite IH.
      destruct (value_eqb k x) eqn:Ekx, (value_eqb v x) eqn:Evx; auto.
      rewrite value_eqb_sym in Evx.
      rewrite (value_eqb_trans k x v Ekx Evx) in Ekv. discriminate.
Qed.

Lemma count_at_fold_tally (x : value) (vs : list value) (acc : Counts) :
  count_at x (fold_left (fun a v => tally_add v a) vs acc)
  = (count_at x acc + occurrences x vs)%nat.
Proof.
  revert acc. induction vs as [|v t IH]; intros acc; simpl.
  - unfold occurrences; simpl. lia.
  - rewrite IH, count_at_tally_add. unfold occurrences; simpl.
    destruct (value_eqb v x); simpl; lia.
Qed.

Lemma count_at_tally (x : value) (vs : list value) :
  count_at x (tally vs) = occurrences x vs.
Proof. unfold tally. now rewrite count_at_fold_tally. Qed.

Lemma total_count_tally_add (v : value) (acc : Counts) :
  total_count (tally_add v acc) = S (total_count acc).
Proof.
  unfold total_count. induction acc as [|[k c] t IH]; simpl; auto.
  destruct (value_eqb k v); simpl; auto. rewrite IH. lia.
Qed.

Lemma total_count_tally (vs : list value) :
  total_count (tally vs) = List.length vs.
Proof.
  unfold tally.
  enough (H : forall acc,
             total_count (fold_left (fun a v => tally_add v a) vs acc)
             = (total_count acc + List.length vs)%nat) by apply H.
  induction vs as [|v t IH]; intros acc; simpl; [lia|].
  rewrite IH, total_count_tally_add. lia.
Qed.

(** The labels of a tally are cells of the column. *)
Lemma tally_add_keys (v : value) (acc : Counts) (e : value * nat) :
  In e (tally_add v acc) -> fst e = v \/ exists e', In e' acc /\ fst e = fst e'.
Proof.
  induction acc as [|[k c] t IH]; simpl.
  - intros [<-|[]]. now left.
  - destruct (value_eqb k v); simpl.
    + intros [<-|H]; right.
      * exists (k, c). simpl. auto.
      * exists e. auto.
    + intros [<-|H].
      * right. exists (k, c). simpl; auto.
      * destruct (IH H) as [E|[e' [Hin He]]]; auto.
        right. exists e'. auto.
Qed.

Lemma tally_keys (vs : list value) (e : value * nat) :
  In e (tally vs) -> In (fst e) vs.
Proof.
  unfold tally.
  enough (H : forall acc,
             In e (fold_left (fun a v => tally_add v a) vs acc) ->
             In (fst e) vs \/ exists e', In e' acc /\ fst e = fst e').
  { intros Hin. destruct (H [] Hin) as [?|[e' [[] _]]]. assumption. }
  induction vs as [|v t IH]; intros acc Hin; simpl in *.
  - right. exists e. auto.
  - destruct (IH _ Hin) as [H|[e' [He' Hk]]]; auto.
    destruct (tally_add_keys _ _ _ He') as [E|[e'' [H1 H2]]].
    + left. left. congruence.
    + right. exists e''. split; congruence.
Qed.

Lemma fresh_keys_tally_add (v : value) (acc : Counts) :
  fresh_keys acc -> fresh_keys (tally_add v acc).
Proof.
  induction acc as [|[k c] t IH]; simpl.
  - auto.
  - intros [Hk Ht]. destruct (value_eqb k v) eqn:E; simpl.
    + auto.
    + split; [|auto].
      rewrite Forall_forall in *. intros e He.
      destruct (tally_add_keys _ _ _ He) as [E'|[e' [Hin Hf]]].
      * now rewrite E'.
      * rewrite Hf. auto.
Qed.

Lemma fresh_keys_tally (vs : list value) : fresh_keys (tally vs).
Proof.
  unfold tally.
  enough (H : forall acc, fresh_keys acc ->
             fresh_keys (fold_left (fun a v => tally_add v a) vs acc))
    by (apply H; exact I).
  induction vs as [|v t IH]; intros acc Hacc; simpl; auto.
  apply IH. now apply fresh_keys_tally_add.
Qed.

Lemma insert_desc_perm (x : value * nat) (l : Counts) :
  Permutation (insert_desc x l) (x :: l).
Proof.
  induction l as [|y t IH]; simpl; auto.
  destruct (Nat.leb (snd y) (snd x)); auto.
  rewrite IH. apply perm_swap.
Qed.

Lemma sort_desc_perm (l : Counts) : Permutation (sort_desc l) l.
Proof.
  induction l as [|x t IH]; simpl; auto.
  rewrite insert_desc_perm. now constructor.
Qed.






Lemma total_count_perm (l l' : Counts) :
  Permutation l l' -> total_count l = total_count l'.
Proof.
  intros H. unfold total_count.
  induction H; simpl; lia.
Qed.

Lemma count_at_insert_desc (x : value) (e : value * nat) (l : Counts) :
  Forall (fun e' => value_eqb (fst e) (fst e') = false) l ->
  count_at x (insert_desc e l)
  = if value_eqb (fst e) x then snd e else count_at x l.
Proof.
  destruct e as [k c]. simpl.
  induction l as [|[k' c'] t IH]; intros Hf; simpl.
  - now rewrite count_at_cons.
  - inversion Hf as [|? ? Hk Ht]; subst. simpl in Hk.
    destruct (Nat.leb c' c); rewrite !count_at_cons; auto.
    rewrite (IH Ht).
    destruct (value_eqb k' x) eqn:E1, (value_eqb k x) eqn:E2; auto.
    rewrite value_eqb_sym in E1.
    rewrite (value_eqb_trans k x k' E2 E1) in Hk. discriminate.
Qed.

Lemma count_at_sort_desc (x : value) (l : Counts) :
  fresh_keys l -> count_at x (sort_desc l) = count_at x l.
Proof.
  induction l as [|[k c] t IH]; intros Hf; simpl; auto.
  destruct Hf as [Hk Ht].
  rewrite count_at_insert_desc, count_at_cons, (IH Ht); auto.
  rewrite Forall_forall in *. intros e He.
  apply Hk. exact (Permutation_in _ (sort_desc_perm t) He).
Qed.

(** What [value_counts] returns for a label: the number of cells of the
    column that carry it. *)
Lemma count_at_value_counts (x : value) (s : Series) :
  count_at x (value_counts s) = occurrences x (filter notna (s_values s)).
Proof.
  unfold value_counts.
  rewrite count_at_sort_desc by apply fresh_keys_tally.
  apply count_at_tally.
Qed.

Lemma total_count_value_counts (s : Series) :
  total_count (value_counts s) = List.length (filter notna (s_values s)).
Proof.
  unfold value_counts.
  rewrite (total_count_perm _ _ (sort_desc_perm _)).
  apply total_count_tally.
Qed.

Lemma value_counts_keys (s : Series) (e : value * nat) :
  In e (value_counts s) -> In (fst e) (filter notna (s_values s)).
Proof.
  intros H. apply tally_keys.
  exact (Permutation_in _ (sort_desc_perm _) H).
Qed.


(** ** The mean of a column *)

Lemma nansum_count_numbers (vs : list value) :
  Forall (fun v => is_number v = true) vs ->
  exists sc, nansum_count vs = Ok sc.
Proof.
  induction 1 as [|v t Hv _ [sc IH]]; simpl; eauto.
  rewrite IH; simpl. destruct v; simpl in Hv; try discriminate; eauto.
Qed.

Lemma mean_numbers (s : Series) :
  Forall (fun v => is_number v = true) (s_values s) ->
  exists m, mean s = Ok m /\ (m = VNaN \/ exists q, m = VFloat q).
Proof.
  intros H. unfold mean.
  destruct (nansum_count_numbers _ H) as [[q n] E]. rewrite E; simpl.
  destruct n; eauto.
Qed.

(** ** Columns of labels *)

Lemma label_cells_notna (vs : list value) :
  Forall is_label vs -> filter notna vs = vs.
Proof.
  induction 1 as [|v t [l ->] _ IH]; simpl; auto.
  now rewrite IH.
Qed.

Lemma label_occurrences (vs : list value) :
  Forall is_label vs ->
  (occurrences (VStr "Positive") vs + occurrences (VStr "Negative") vs
   + occurrences (VStr "Neutral") vs = List.length vs)%nat.
Proof.
  unfold occurrences.
  induction 1 as [|v t [l ->] _ IH]; simpl; auto.
  destruct l; simpl; lia.
Qed.

Lemma map_label_cells {A : Type} (f : A -> Sentiment) (l : list A) :
  Forall is_label (map (fun x => VStr (label_name (f x))) l).
Proof.
  induction l; simpl; constructor; auto. now exists (f a).
Qed.

Section Aggregates.

Context {ext : Collaborators}.

(** The fields of the summary, read off the script. *)
Lemma summary_metrics_fields df m :
  summary_metrics df = Ok m ->
  exists score mu sentiment,
    getitem df "Score" = Ok score
    /\ mean score = Ok mu
    /\ py_round mu 2 = Ok (avg_rating m)
    /\ getitem df "sentiment" = Ok sentiment
    /\ total_reviews m = len df
    /\ sentiment_counts m = value_counts sentiment
    /\ sentiment_pct m = pct_of (value_counts sentiment) (len df).
Proof.
  unfold summary_metrics.
  destruct (getitem df "Score") as [score|]; simpl; [|discriminate].
  destruct (mean score) as [mu|] eqn:Em; simpl; [|discriminate].
  destruct (py_round mu 2) as [avg|] eqn:Er; simpl; [|discriminate].
  destruct (getitem df "sentiment") as [sentiment|]; simpl; [|discriminate].
  intros [= <-]. exists score, mu, sentiment. simpl.
  repeat split; assumption.
Qed.

(** The summary is computed whenever the rating column holds numbers. *)
Lemma summary_metrics_total df score sentiment :
  getitem df "Score" = Ok score ->
  Forall (fun v => is_number v = true) (s_values score) ->
  getitem df "sentiment" = Ok sentiment ->
  exists m, summary_metrics df = Ok m.
Proof.
  intros Hs Hn Hl. unfold summary_metrics. rewrite Hs; simpl.
  destruct (mean_numbers _ Hn) as [mu [E Hmu]]. rewrite E; simpl.
  destruct Hmu as [->|[q ->]]; simpl; rewrite Hl; simpl; eauto.
Qed.

(** The annotation followed by the summary, on a frame with a text
    column and a numeric rating column: nothing raises and each field of
    the summary is the aggregate of the corresponding column. *)
Lemma annotate_then_summarise df text score :
  getitem df "Text" = Ok text ->
  getitem df "Score" = Ok score ->
  Forall (fun v => is_number v = true) (s_values score) ->
  exists df' m labels mu,
    generate_sentiment df = Ok df'
    /\ summary_metrics df' = Ok m
    /\ getitem df' "sentiment" = Ok labels
    /\ s_values labels
       = map (fun x => VStr (label_name (label_of x))) (s_values text)
    /\ total_reviews m = len df
    /\ sentiment_counts m = value_counts labels
    /\ sentiment_pct m = pct_of (value_counts labels) (len df)
    /\ mean score = Ok mu
    /\ py_round mu 2 = Ok (avg_rating m).
Proof.
  intros Ht Hs Hn.
  destruct (generate_sentiment_columns df text Ht) as [d1 [d2 Hg]].
  destruct (annotated_columns _ _ _ Ht Hg) as [d1' [d2' [_ [Hl [Hrows Hother]]]]].
  set (df' := setitem _ _ _) in *.
  assert (Hs' : getitem df' "Score" = Ok score)
    by (rewrite Hother; [assumption | discriminate | discriminate]).
  destruct (summary_metrics_total df' _ _ Hs' Hn Hl) as [m Hm].
  destruct (summary_metrics_fields _ _ Hm)
    as [score' [mu [sent [Hs'' [Hmu [Hr [Hl' [Htot [Hc Hp]]]]]]]]].
  rewrite Hl in Hl'. injection Hl' as <-.
  rewrite Hs' in Hs''. injection Hs'' as <-.
  exists df', m, (mkSeries d2' (map (fun x => VStr (label_name (label_of x)))
                                 (s_values text))), mu.
  repeat (split; [assumption || reflexivity|]). assumption.
Qed.

(** The percentages never divide by zero: a label is counted only in a
    frame that has rows. *)
Lemma counted_label_has_rows df text score :
  wf_frame df ->
  getitem df "Text" = Ok text ->
  getitem df "Score" = Ok score ->
  Forall (fun v => is_number v = true) (s_values score) ->
  exists df' m,
    generate_sentiment df = Ok df'
    /\ summary_metrics df' = Ok m
    /\ (sentiment_counts m <> [] -> (0 < total_reviews m)%nat).
Proof.
  intros Hwf Ht Hs Hn.
  destruct (annotate_then_summarise df text score Ht Hs Hn)
    as [df' [m [labels [mu [Hg [Hm [_ [Hv [Htot [Hc _]]]]]]]]]].
  exists df', m. repeat (split; [assumption|]).
  rewrite Htot, Hc. unfold len.
  rewrite <- (wf_column_length _ _ _ Hwf Ht).
  unfold value_counts. rewrite Hv.
  destruct (s_values text); simpl; [congruence | lia].
Qed.

(** C3. The counts of the three labels add up to the number of rows, and
    every row carries exactly one of the three labels. *)
Theorem sentiment_counts_sum_to_total :
  forall df text score,
    wf_frame df ->
    getitem df "Text" = Ok text ->
    getitem df "Score" = Ok score ->
    Forall (fun v => is_number v = true) (s_values score) ->
    exists df' m labels,
      generate_sentiment df = Ok df'
      /\ summary_metrics df' = Ok m
      /\ getitem df' "sentiment" = Ok labels
      /\ List.length (s_values labels) = len df
      /\ Forall is_label (s_values labels)
      /\ total_reviews m = len df
      /\ (counts_get "Positive" (sentiment_counts m)
          + counts_get "Negative" (sentiment_counts m)
          + counts_get "Neutral" (sentiment_counts m) = total_reviews m)%nat
      /\ total_count (sentiment_counts m) = total_reviews m
      /\ Forall (fun e => is_label (fst e)) (sentiment_counts m).
Proof.
  intros df text score Hwf Ht Hs Hn.
  destruct (annotate_then_summarise df text score Ht Hs Hn)
    as [df' [m [labels [mu [Hg [Hm [Hl [Hv [Htot [Hc _]]]]]]]]]].
  assert (Hlab : Forall is_label (s_values labels))
    by (rewrite Hv; apply map_label_cells).
  assert (Hlen : List.length (s_values labels) = len df).
  { rewrite Hv, length_map.
    now apply wf_column_length with (name := "Text"). }
  exists df', m, labels.
  repeat (split; [assumption|]).
  rewrite Htot, Hc. split; [|split].
  - unfold counts_get. rewrite !count_at_value_counts.
    rewrite (label_cells_notna _ Hlab), <- Hlen.
    now apply label_occurrences.
  - rewrite total_count_value_counts, (label_cells_notna _ Hlab). exact Hlen.
  - rewrite Forall_forall. intros e He.
    apply value_counts_keys in He. rewrite (label_cells_notna _ Hlab) in He.
    rewrite Forall_forall in Hlab. auto.
Qed.

End Aggregates.

(** ** Rounding *)

Local Open Scope Q_scope.








Local Close Scope Q_scope.

(** ** Percentages and average *)






Section Percentages.

Context {ext : Collaborators}.



End Percentages.

(** ** The most frequent reviewers *)



Lemma fresh_keys_insert_desc (e : value * nat) (l : Counts) :
  Forall (fun e' => value_eqb (fst e) (fst e') = false) l ->
  fresh_keys l -> fresh_keys (insert_desc e l).
Proof.
  induction l as [|y t IH]; simpl; intros Hf Hl; auto.
  inversion Hf as [|? ? Hy Ht]; subst. destruct Hl as [Hyt Hfr].
  destruct (Nat.leb (snd y) (snd e)); simpl; auto.
  split; auto.
  rewrite Forall_forall in *. intros z Hz.
  apply (Permutation_in _ (insert_desc_perm e t)) in Hz.
  destruct Hz as [<-|Hz]; auto.
  now rewrite value_eqb_sym.
Qed.

Lemma fresh_keys_sort_desc (l : Counts) :
  fresh_keys l -> fresh_keys (sort_desc l).
Proof.
  induction l as [|e t IH]; simpl; auto. intros [He Ht].
  apply fresh_keys_insert_desc; auto.
  rewrite Forall_forall in *. intros z Hz.
  apply He. exact (Permutation_in _ (sort_desc_perm t) Hz).
Qed.


Lemma count_at_entry (l : Counts) (e : value * nat) :
  fresh_keys l -> In e l -> value_eqb (fst e) (fst e) = true ->
  count_at (fst e) l = snd e.
Proof.
  induction l as [|[k c] t IH]; simpl; intros Hf Hin Hr; [contradiction|].
  destruct Hf as [Hk Ht]. rewrite count_at_cons.
  destruct Hin as [<-|Hin]; simpl in *.
  - now rewrite Hr.
  - rewrite Forall_forall in Hk. rewrite (Hk _ Hin). auto.
Qed.

Lemma occurrences_In (v : value) (vs : list value) :
  In v vs -> value_eqb v v = true -> (1 <= occurrences v vs)%nat.
Proof.
  unfold occurrences. induction vs as [|x t IH]; simpl; intros Hin Hr.
  - contradiction.
  - destruct Hin as [->|Hin].
    + rewrite Hr. simpl. lia.
    + specialize (IH Hin Hr). destruct (value_eqb x v); simpl; lia.
Qed.


(** ** Row-wise annotation *)

Lemma column_values_getitem df name s :
  getitem df name = Ok s -> column_values df name = s_values s.
Proof.
  intros H. apply getitem_Ok_lookup in H. unfold column_values. now rewrite H.
Qed.

Lemma combine_map_same {A B C : Type} (f : A -> B) (g : A -> C) (l : list A) :
  combine (map f l) (map g l) = map (fun x => (f x, g x)) l.
Proof. induction l; simpl; congruence. Qed.

Lemma combine_map_r {A B : Type} (f : A -> B) (l : list A) :
  combine l (map f l) = map (fun x => (x, f x)) l.
Proof. induction l; simpl; congruence. Qed.

Section Rows.

Context {ext : Collaborators}.

Lemma annotation_at_row df df' text i :
  getitem df "Text" = Ok text ->
  generate_sentiment df = Ok df' ->
  annotation_at df' i = option_map annotation_of (nth_error (s_values text) i).
Proof.
  intros Ht Hg.
  destruct (annotated_columns _ _ _ Ht Hg) as [d1 [d2 [E1 [E2 _]]]].
  unfold annotation_at.
  rewrite (column_values_getitem _ _ _ E1), (column_values_getitem _ _ _ E2).
  simpl. rewrite !nth_error_map.
  now destruct (nth_error (s_values text) i).
Qed.

Lemma annotated_rows_map df df' text :
  getitem df "Text" = Ok text ->
  generate_sentiment df = Ok df' ->
  annotated_rows df' = map (fun x => (x, annotation_of x)) (s_values text).
Proof.
  intros Ht Hg.
  destruct (annotated_columns _ _ _ Ht Hg) as [d1 [d2 [E1 [E2 [_ Ho]]]]].
  unfold annotated_rows.
  rewrite (column_values_getitem _ _ _ E1), (column_values_getitem _ _ _ E2).
  assert (E : getitem df' "Text" = Ok text)
    by (rewrite Ho; [assumption | discriminate | discriminate]).
  rewrite (column_values_getitem _ _ _ E). simpl.
  rewrite combine_map_same. apply combine_map_r.
Qed.

(** C9. A row whose text is missing or empty does not stop the
    annotation: the cell is turned into a string ("nan" for a missing
    value), scored and labelled like any other; its label is Neutral as
    soon as the scorer rates that string within the thresholds, as it does
    for a text without sentiment words. *)
Theorem blank_text_is_scored_not_an_error :
  forall df text,
    getitem df "Text" = Ok text ->
    exists df' scores labels,
      generate_sentiment df = Ok df'
      /\ getitem df' "sentiment_score" = Ok scores
      /\ getitem df' "sentiment" = Ok labels
      /\ forall i v,
          nth_error (s_values text) i = Some v ->
          v = VNaN \/ v = VStr "" ->
          (py_str v = "nan" \/ py_str v = "")
          /\ nth_error (s_values scores) i = Some (VFloat (polarity (py_str v)))
          /\ exists l : Sentiment,
              nth_error (s_values labels) i = Some (VStr (label_name l))
              /\ ((- lit_0_1 <= polarity (py_str v) <= lit_0_1)%Q -> l = Neutral).
Proof.
  intros df text Ht.
  destruct (generate_sentiment_columns df text Ht) as [d1 [d2 Hg]].
  destruct (annotated_columns _ _ _ Ht Hg) as [d1' [d2' [E1 [E2 _]]]].
  eexists _, _, _. split; [exact Hg|]. split; [exact E1|]. split; [exact E2|].
  intros i v Hv Hblank. simpl. rewrite !nth_error_map, Hv. simpl.
  split; [destruct Hblank as [->| ->]; simpl; auto|].
  split; [reflexivity|].
  exists (label_of v). split; [reflexivity|].
  intros [Hlo Hhi]. unfold label_of, score_of.
  apply classify_thresholds.
  - apply Qle_not_lt. exact Hhi.
  - apply Qle_not_lt. exact Hlo.
Qed.

(** C10. The annotation is a row-wise transform: the score and the label
    of a row are a function of the text of that row.  Hence two rows with
    the same text, in any two tables and at any two positions, get the
    same annotation, and reordering the rows reorders the annotated rows
    without changing any of them. *)
Theorem annotation_depends_on_own_text_only :
  forall df1 df2 text1 text2 df1' df2',
    getitem df1 "Text" = Ok text1 ->
    getitem df2 "Text" = Ok text2 ->
    generate_sentiment df1 = Ok df1' ->
    generate_sentiment df2 = Ok df2' ->
    (forall i,
        annotation_at df1' i
        = option_map annotation_of (nth_error (s_values text1) i))
    /\ (forall i j,
           nth_error (s_values text1) i = nth_error (s_values text2) j ->
           annotation_at df1' i = annotation_at df2' j)
    /\ (Permutation (s_values text1) (s_values text2) ->
        Permutation (annotated_rows df1') (annotated_rows df2')).
Proof.
  intros df1 df2 text1 text2 df1' df2' Ht1 Ht2 Hg1 Hg2.
  split; [|split].
  - intros i. now apply annotation_at_row with (df := df1).
  - intros i j H.
    rewrite (annotation_at_row df1 df1' text1 i Ht1 Hg1).
    rewrite (annotation_at_row df2 df2' text2 j Ht2 Hg2).
    now rewrite H.
  - intros H.
    rewrite (annotated_rows_map df1 df1' text1 Ht1 Hg1).
    rewrite (annotated_rows_map df2 df2' text2 Ht2 Hg2).
    now apply Permutation_map.
Qed.

End Rows.

(** ** Runs of the script *)

Lemma app_bind_ok {A B : Type} (m : app A) (k : A -> app B) (a : A) :
  snd m = Ok a -> app_bind m k = (fst m ++ fst (k a), snd (k a)).
Proof.
  destruct m as [shown r]; simpl. intros ->. unfold app_bind.
  now destruct (k a).
Qed.

Lemma app_bind_raise {A B : Type} (m : app A) (k : A -> app B) (e : exn) :
  snd m = Raise e -> app_bind m k = (fst m, Raise e).
Proof. destruct m as [shown r]; simpl. now intros ->. Qed.

Lemma getitem_list_columns df names sub :
  getitem_list df names = Ok sub ->
  forall n, In n names -> has_column n df = true.
Proof.
  unfold getitem_list.
  destruct (filter (fun n => negb (has_column n df)) names) eqn:E;
    [|discriminate].
  intros _ n Hn. destruct (has_column n df) eqn:Hc; auto.
  assert (Hin : In n (filter (fun n => negb (has_column n df)) names))
    by (apply filter_In; now rewrite Hc).
  rewrite E in Hin. contradiction.
Qed.

Section Runs.

Context {ext : Collaborators}.

Lemma convert_time_without_time df :
  has_column "Time" df = false -> convert_time df = Ok df.
Proof. unfold convert_time. now intros ->. Qed.

(** The conversion adds or replaces [date] and nothing else. *)
Lemma convert_time_other_columns df df1 :
  convert_time df = Ok df1 ->
  nrows df1 = nrows df
  /\ forall name, name <> "date" -> getitem df1 name = getitem df name.
Proof.
  unfold convert_time. destruct (has_column "Time" df).
  - destruct (getitem df "Time") as [time|]; simpl; [|discriminate].
    destruct (to_datetime time) as [date|]; simpl; [|discriminate].
    intros [= <-]. split; [reflexivity|].
    intros name Hn. apply getitem_setitem_other. congruence.
  - intros [= <-]. auto.
Qed.

(** On a frame without rows the conversion cannot fail. *)
Lemma convert_time_empty df :
  wf_frame df -> nrows df = 0%nat -> exists df1, convert_time df = Ok df1.
Proof.
  intros Hwf H0. unfold convert_time.
  destruct (has_column "Time" df) eqn:Ht; [|eauto].
  destruct (has_column_getitem _ _ Ht) as [time Hg]. rewrite Hg; simpl.
  pose proof (wf_column_length _ _ _ Hwf Hg) as Hlen. rewrite H0 in Hlen.
  apply length_zero_iff_nil in Hlen.
  unfold to_datetime. rewrite Hlen; simpl. eauto.
Qed.

Lemma load_and_annotate_run df df1 :
  convert_time df = Ok df1 ->
  load_and_annotate df
  = ([st_success (" Loaded " ++ str_of_nat (len df) ++ " reviews");
      st_expander " Data Preview";
      st_dataframe (head 10 df);
      st_info " Analyzing sentiment of reviews... please wait a few seconds"],
     generate_sentiment df1).
Proof.
  intros H. unfold load_and_annotate. run_block. rewrite H.
  now destruct (generate_sentiment df1).
Qed.


Lemma show_summary_run df m :
  summary_metrics df = Ok m ->
  show_summary df
  = ([st_subheader " Summary Metrics";
      st_metric "Total Reviews" (VInt (Z.of_nat (total_reviews m)));
      st_metric "Average Rating" (avg_rating m);
      st_metric "Positive (%)"
        (VStr (py_str (pct_get "Positive" (sentiment_pct m)) ++ "%"));
      st_metric "Negative (%)"
        (VStr (py_str (pct_get "Negative" (sentiment_pct m)) ++ "%"))],
     Ok m).
Proof.
  intros H. unfold show_summary. run_block. now rewrite H.
Qed.

Lemma show_summary_stop df e :
  summary_metrics df = Raise e ->
  show_summary df = ([st_subheader " Summary Metrics"], Raise e).
Proof.
  intros H. unfold show_summary. run_block. now rewrite H.
Qed.

(** The dashboard block, by the outcome of the table of recent reviews. *)
Lemma show_dashboard_run df m x color :
  getitem df "Score" = Ok x ->
  getitem df "sentiment" = Ok color ->
  show_dashboard df m
  = ([st_markdown "---";
      st_plotly_chart
        (px_pie (map fst (sentiment_counts m)) (map snd (sentiment_counts m)));
      st_plotly_chart (px_histogram x color 5);
      st_write " **Recent Reviews**"]
     ++ match recent_reviews df with
        | Ok recent => [st_dataframe recent]
        | Raise _ => []
        end,
     match recent_reviews df with
     | Ok _ => Ok tt
     | Raise e => Raise e
     end).
Proof.
  intros Hx Hc. unfold show_dashboard. run_block.
  rewrite Hx, Hc. now destruct (recent_reviews df).
Qed.

Lemma recent_reviews_needs_date df :
  has_column "date" df = false ->
  has_column "Summary" df = true ->
  has_column "Text" df = true ->
  has_column "sentiment" df = true ->
  has_column "Score" df = true ->
  recent_reviews df = Raise (KeyError ["date"]).
Proof.
  intros Hd H1 H2 H3 H4. unfold recent_reviews, getitem_list; simpl.
  now rewrite Hd, H1, H2, H3, H4.
Qed.

Lemma recent_reviews_has_date df recent :
  recent_reviews df = Ok recent -> has_column "date" df = true.
Proof.
  unfold recent_reviews.
  destruct (getitem_list df ["Summary"; "Text"; "sentiment"; "Score"; "date"])
    as [sub|] eqn:E; [|discriminate].
  intros _. apply (getitem_list_columns _ _ _ E). simpl. tauto.
Qed.

End Runs.

Section Page.

Context {ext : Collaborators}.

Lemma main_upload df :
  main (Some df)
  = ([st_title " Amazon Customer Feedback Dashboard";
      st_sidebar_header " Upload & Settings";
      st_sidebar_file_uploader "Upload your Amazon reviews CSV file"]
     ++ fst (process df),
     snd (process df)).
Proof. unfold main. run_block. now destruct (process df). Qed.

(** The page up to the headline metrics, once the summary is computed. *)
Lemma process_summarised df df1 df2 m :
  convert_time df = Ok df1 ->
  generate_sentiment df1 = Ok df2 ->
  summary_metrics df2 = Ok m ->
  process df
  = ([st_success (" Loaded " ++ str_of_nat (len df) ++ " reviews");
      st_expander " Data Preview";
      st_dataframe (head 10 df);
      st_info " Analyzing sentiment of reviews... please wait a few seconds";
      st_subheader " Summary Metrics";
      st_metric "Total Reviews" (VInt (Z.of_nat (total_reviews m)));
      st_metric "Average Rating" (avg_rating m);
      st_metric "Positive (%)"
        (VStr (py_str (pct_get "Positive" (sentiment_pct m)) ++ "%"));
      st_metric "Negative (%)"
        (VStr (py_str (pct_get "Negative" (sentiment_pct m)) ++ "%"))]
     ++ fst (app_bind (show_dashboard df2 m) (fun _ => show_trends df2)),
     snd (app_bind (show_dashboard df2 m) (fun _ => show_trends df2))).
Proof.
  intros H1 H2 H3. unfold process.
  rewrite (app_bind_ok _ _ df2)
    by (rewrite (load_and_annotate_run _ _ H1); exact H2).
  rewrite (app_bind_ok _ _ m) by (now rewrite (show_summary_run _ _ H3)).
  rewrite (load_and_annotate_run _ _ H1), (show_summary_run _ _ H3).
  simpl. reflexivity.
Qed.

(** C8. An upload with a header and no data row is loaded with 0 rows and
    summarised without an exception: the total is 0, the average rating
    is NaN, there is no count and no percentage, and the page shows
    0 reviews, NaN and twice 0%. *)
Theorem empty_upload_is_summarised :
  forall df,
    wf_frame df ->
    nrows df = 0%nat ->
    has_column "Text" df = true ->
    has_column "Score" df = true ->
    exists df1 df2 m later,
      convert_time df = Ok df1
      /\ generate_sentiment df1 = Ok df2
      /\ summary_metrics df2 = Ok m
      /\ total_reviews m = 0%nat
      /\ avg_rating m = VNaN
      /\ sentiment_counts m = []
      /\ sentiment_pct m = []
      /\ fst (main (Some df))
         = [st_title " Amazon Customer Feedback Dashboard";
            st_sidebar_header " Upload & Settings";
            st_sidebar_file_uploader "Upload your Amazon reviews CSV file";
            st_success " Loaded 0 reviews";
            st_expander " Data Preview";
            st_dataframe (head 10 df);
            st_info " Analyzing sentiment of reviews... please wait a few seconds";
            st_subheader " Summary Metrics";
            st_metric "Total Reviews" (VInt 0);
            st_metric "Average Rating" VNaN;
            st_metric "Positive (%)" (VStr "0%");
            st_metric "Negative (%)" (VStr "0%")] ++ later.
Proof.
  intros df Hwf H0 Htext Hscore.
  destruct (convert_time_empty df Hwf H0) as [df1 H1].
  destruct (convert_time_other_columns _ _ H1) as [Hrows Hcols].
  destruct (has_column_getitem _ _ Htext) as [text Ht].
  destruct (has_column_getitem _ _ Hscore) as [score Hs].
  assert (Htnil : s_values text = []).
  { apply length_zero_iff_nil. rewrite <- H0.
    now apply wf_column_length with (name := "Text"). }
  assert (Hsnil : s_values score = []).
  { apply length_zero_iff_nil. rewrite <- H0.
    now apply wf_column_length with (name := "Score"). }
  assert (Ht1 : getitem df1 "Text" = Ok text)
    by (rewrite Hcols; [assumption | discriminate]).
  assert (Hs1 : getitem df1 "Score" = Ok score)
    by (rewrite Hcols; [assumption | discriminate]).
  assert (Hnum : Forall (fun v => is_number v = true) (s_values score))
    by (rewrite Hsnil; constructor).
  destruct (annotate_then_summarise df1 text score Ht1 Hs1 Hnum)
    as [df2 [m [labels [mu [Hg [Hm [_ [Hv [Htot [Hc [Hp [Hmu Hr]]]]]]]]]]]].
  assert (Hm0 : total_reviews m = 0%nat)
    by (rewrite Htot; unfold len; congruence).
  assert (Havg : avg_rating m = VNaN).
  { unfold mean in Hmu. rewrite Hsnil in Hmu. simpl in Hmu.
    injection Hmu as <-. simpl in Hr. congruence. }
  assert (Hc0 : sentiment_counts m = []).
  { rewrite Hc. unfold value_counts. rewrite Hv, Htnil. reflexivity. }
  assert (Hp0 : sentiment_pct m = []).
  { rewrite Hp, <- Hc, Hc0. reflexivity. }
  eexists df1, df2, m, _.
  repeat (split; [assumption|]).
  rewrite main_upload, (process_summarised _ _ _ _ H1 Hg Hm).
  unfold fst at 1. unfold len. rewrite H0, Hm0, Havg, Hp0. reflexivity.
Qed.

End Page.

(** ** A table without dates *)

Section MissingTime.

Context {ext : Collaborators}.

Lemma show_trends_with_date df :
  has_column "date" df = true -> ~ shows_fallback (fst (show_trends df)).
Proof.
  intros H. unfold shows_fallback, show_trends. run_block.
  rewrite H.
  destruct (trend df); destruct (top_users df); no_fallback.
Qed.

Lemma show_dashboard_no_fallback df m :
  ~ shows_fallback (fst (show_dashboard df m)).
Proof.
  unfold shows_fallback, show_dashboard. run_block.
  destruct (getitem df "Score"); destruct (getitem df "sentiment");
    destruct (recent_reviews df); no_fallback.
Qed.

Lemma show_dashboard_done df m :
  snd (show_dashboard df m) = Ok tt -> has_column "date" df = true.
Proof.
  unfold show_dashboard. run_block.
  destruct (getitem df "Score"); simpl; [|discriminate].
  destruct (getitem df "sentiment"); simpl; [|discriminate].
  destruct (recent_reviews df) eqn:E; simpl; [|discriminate].
  intros _. exact (recent_reviews_has_date _ _ E).
Qed.

Lemma show_summary_no_fallback df :
  ~ shows_fallback (fst (show_summary df)).
Proof.
  unfold shows_fallback, show_summary. run_block.
  destruct (summary_metrics df); no_fallback.
Qed.

Lemma load_and_annotate_no_fallback df :
  ~ shows_fallback (fst (load_and_annotate df)).
Proof.
  unfold shows_fallback, load_and_annotate. run_block.
  destruct (convert_time df) as [df1|]; simpl;
    [destruct (generate_sentiment df1)|]; no_fallback.
Qed.

Lemma shows_fallback_bind {A B : Type} (m : app A) (k : A -> app B) :
  shows_fallback (fst (app_bind m k)) ->
  shows_fallback (fst m)
  \/ exists a, snd m = Ok a /\ shows_fallback (fst (k a)).
Proof.
  destruct m as [shown [a|e]]; simpl.
  - unfold app_bind. destruct (k a) as [more r] eqn:E. simpl.
    unfold shows_fallback. intros H. apply in_app_or in H.
    destruct H; [now left|]. right. exists a. rewrite E. auto.
  - auto.
Qed.

(** The message of line 113 is never displayed: the table of recent
    reviews needs the [date] column, so the script does not get to the
    trend block without it. *)
Lemma fallback_never_shown (uploaded_file : option DataFrame) :
  ~ shows_fallback (fst (main uploaded_file)).
Proof.
  destruct uploaded_file as [df|].
  - rewrite main_upload. unfold shows_fallback. simpl.
    intros [H|[H|[H|H]]]; try discriminate. revert H.
    fold (shows_fallback (fst (process df))). unfold process. intros H.
    apply shows_fallback_bind in H.
    destruct H as [H|[df' [_ H]]]; [now apply load_and_annotate_no_fallback in H|].
    apply shows_fallback_bind in H.
    destruct H as [H|[m [_ H]]]; [now apply show_summary_no_fallback in H|].
    apply shows_fallback_bind in H.
    destruct H as [H|[[] [Hdone H]]]; [now apply show_dashboard_no_fallback in H|].
    apply show_dashboard_done in Hdone.
    now apply show_trends_with_date in H.
  - unfold shows_fallback. no_fallback.
Qed.

(** Without a [Time] column (and without a [date] column of its own) the
    script stops with [KeyError: ['date']] at the table of recent reviews. *)
Lemma missing_time_raises df text score :
  has_column "Time" df = false ->
  has_column "date" df = false ->
  has_column "Summary" df = true ->
  getitem df "Text" = Ok text ->
  getitem df "Score" = Ok score ->
  Forall (fun v => is_number v = true) (s_values score) ->
  snd (main (Some df)) = Raise (KeyError ["date"])
  /\ last (fst (main (Some df))) (st_markdown "")
     = st_write " **Recent Reviews**".
Proof.
  intros Htime Hdate Hsum Ht Hs Hn.
  pose proof (convert_time_without_time _ Htime) as H1.
  destruct (annotate_then_summarise df text score Ht Hs Hn)
    as [df' [m [labels [mu [Hg [Hm [Hl _]]]]]]].
  destruct (annotated_columns _ _ _ Ht Hg) as [d1 [d2 [_ [_ [_ Ho]]]]].
  assert (Hcol : forall name, name <> "sentiment_score" -> name <> "sentiment" ->
                              has_column name df' = has_column name df).
  { intros name N1 N2. specialize (Ho name N1 N2).
    unfold getitem, has_column in *.
    destruct (lookup_col name (columns df')), (lookup_col name (columns df));
      congruence. }
  assert (Hr : recent_reviews df' = Raise (KeyError ["date"])).
  { apply recent_reviews_needs_date.
    - rewrite Hcol by discriminate. exact Hdate.
    - rewrite Hcol by discriminate. exact Hsum.
    - rewrite Hcol by discriminate. exact (getitem_has_column _ _ _ Ht).
    - exact (getitem_has_column _ _ _ Hl).
    - rewrite Hcol by discriminate. exact (getitem_has_column _ _ _ Hs). }
  assert (Hs' : getitem df' "Score" = Ok score)
    by (rewrite Ho; [assumption | discriminate | discriminate]).
  rewrite main_upload, (process_summarised _ _ _ _ H1 Hg Hm).
  rewrite (app_bind_raise _ _ (KeyError ["date"]))
    by (rewrite (show_dashboard_run _ _ _ _ Hs' Hl), Hr; reflexivity).
  rewrite (show_dashboard_run _ _ _ _ Hs' Hl), Hr.
  split; reflexivity.
Qed.




(** C2 (the script does otherwise). On the sample upload without a [Time]
    column the run ends with [KeyError: ['date']] raised by the table of
    recent reviews, and the informational message is not displayed. *)
Theorem missing_time_column_raises_KeyError :
  snd (main (Some reviews_without_time)) = Raise (KeyError ["date"])
  /\ ~ In (st_info no_time_message) (fst (main (Some reviews_without_time))).
Proof.
  split.
  - eapply missing_time_raises; try reflexivity.
    repeat constructor.
  - apply fallback_never_shown.
Qed.

End MissingTime.

(** ** The table of recent reviews *)

Section RecentReviews.

Context {ext : Collaborators}.

(** The table holds the first ten rows of the frame, in the order of the
    file: nothing is sorted. *)
Lemma recent_reviews_first_rows df table name :
  recent_reviews df = Ok table ->
  In name ["Summary"; "Text"; "sentiment"; "Score"; "date"] ->
  column_values table name = firstn 10 (column_values df name).
Proof.
  intros H Hin. unfold recent_reviews, getitem_list, has_column in H.
  simpl in H.
  destruct (lookup_col "Summary" (columns df)) eqn:E1; simpl in H;
    destruct (lookup_col "Text" (columns df)) eqn:E2; simpl in H;
    destruct (lookup_col "sentiment" (columns df)) eqn:E3; simpl in H;
    destruct (lookup_col "Score" (columns df)) eqn:E4; simpl in H;
    destruct (lookup_col "date" (columns df)) eqn:E5; simpl in H;
    try discriminate.
  injection H as <-. unfold column_values. simpl in Hin.
  destruct Hin as [<-|[<-|[<-|[<-|[<-|[]]]]]]; simpl;
    rewrite ?E1, ?E2, ?E3, ?E4, ?E5; reflexivity.
Qed.

Lemma recent_table_is_shown df df1 df2 m table :
  convert_time df = Ok df1 ->
  generate_sentiment df1 = Ok df2 ->
  summary_metrics df2 = Ok m ->
  recent_reviews df2 = Ok table ->
  In (st_dataframe table) (fst (main (Some df))).
Proof.
  intros H1 H2 H3 Hr.
  destruct (summary_metrics_fields _ _ H3)
    as [score [mu [sent [Hs [_ [_ [Hl _]]]]]]].
  rewrite main_upload, (process_summarised _ _ _ _ H1 H2 H3).
  rewrite (app_bind_ok _ _ tt)
    by (rewrite (show_dashboard_run _ _ _ _ Hs Hl), Hr; reflexivity).
  rewrite (show_dashboard_run _ _ _ _ Hs Hl), Hr. simpl.
  repeat first [left; reflexivity | right].
Qed.

(** C7 (the script does otherwise). On eleven reviews listed from the
    oldest to the newest, the table under "Recent Reviews" holds the ten
    oldest ones; the most recent review is not in it. *)
Theorem recent_reviews_shows_the_first_rows :
  exists df1 df2 table,
    convert_time reviews_oldest_first = Ok df1
    /\ generate_sentiment df1 = Ok df2
    /\ recent_reviews df2 = Ok table
    /\ In (st_dataframe table) (fst (main (Some reviews_oldest_first)))
    /\ column_values table "date"
       = map (fun s => VTimestamp (s * 1000000000)) (firstn 10 eleven_days)
    /\ latest (column_values df2 "date") = Some (day 10 * 1000000000)%Z
    /\ ~ In (VTimestamp (day 10 * 1000000000)) (column_values table "date").
Proof.
  assert (H1 : exists df1, convert_time reviews_oldest_first = Ok df1
                           /\ getitem df1 "Text"
                              = Ok (strs (repeat "it arrived" 11))
                           /\ getitem df1 "Score" = Ok (ints (repeat 4%Z 11))
                           /\ column_values df1 "date"
                              = map (fun s => VTimestamp (s * 1000000000))
                                  eleven_days
                           /\ forall name,
                               In name ["Summary"; "Text"; "Score"; "date"] ->
                               has_column name df1 = true).
  { eexists. split; [vm_compute; reflexivity|]. repeat split.
    intros name Hin. simpl in Hin. intuition (subst; reflexivity). }
  destruct H1 as [df1 [Hc [Ht [Hs [Hd Hsum]]]]].
  assert (Hn : Forall (fun v => is_number v = true)
                 (s_values (ints (repeat 4%Z 11))))
    by (repeat constructor).
  destruct (annotate_then_summarise df1 _ _ Ht Hs Hn)
    as [df2 [m [labels [mu [Hg [Hm [Hl _]]]]]]].
  destruct (annotated_columns _ _ _ Ht Hg) as [d1 [d2 [Hsc [_ [_ Ho]]]]].
  assert (Hcv : forall name, name <> "sentiment_score" -> name <> "sentiment" ->
                             column_values df2 name = column_values df1 name).
  { intros name N1 N2. specialize (Ho name N1 N2).
    unfold getitem, column_values in *.
    destruct (lookup_col name (columns df2)), (lookup_col name (columns df1));
      congruence. }
  assert (Hr : exists table, recent_reviews df2 = Ok table).
  { unfold recent_reviews, getitem_list.
    assert (Hhas : forall name, In name ["Summary"; "Text"; "Score"; "date"] ->
                                has_column name df2 = true).
    { intros name Hin.
      assert (N : name <> "sentiment_score" /\ name <> "sentiment")
        by (simpl in Hin; intuition (subst; discriminate)).
      destruct N as [N1 N2]. specialize (Ho name N1 N2).
      pose proof (Hsum name Hin) as Hh.
      unfold getitem, has_column in *.
      destruct (lookup_col name (columns df2)), (lookup_col name (columns df1));
        congruence. }
    simpl. rewrite (getitem_has_column _ _ _ Hl).
    rewrite (Hhas "Summary"), (Hhas "Text"), (Hhas "Score"), (Hhas "date")
      by (simpl; tauto).
    simpl. eauto. }
  destruct Hr as [table Hr].
  assert (Hdate : column_values table "date"
                  = map (fun s => VTimestamp (s * 1000000000))
                      (firstn 10 eleven_days)).
  { rewrite (recent_reviews_first_rows _ _ "date" Hr) by (simpl; tauto).
    rewrite Hcv by discriminate. rewrite Hd. reflexivity. }
  exists df1, df2, table.
  repeat (split; [assumption|]).
  split; [exact (recent_table_is_shown _ _ _ _ _ Hc Hg Hm Hr)|].
  split; [assumption|]. split.
  - rewrite Hcv by discriminate. rewrite Hd. reflexivity.
  - rewrite Hdate. vm_compute. intuition discriminate.
Qed.

End RecentReviews.

(** * Further properties of the script *)

(** ** Blocks of the script, one after the other *)

Lemma in_app_bind {A B : Type} (w : widget) (m : app A) (k : A -> app B) :
  In w (fst (app_bind m k)) ->
  In w (fst m) \/ exists a, snd m = Ok a /\ In w (fst (k a)).
Proof.
  destruct m as [shown [a|e]]; simpl.
  - unfold app_bind. destruct (k a) as [more r] eqn:E. simpl.
    intros H. apply in_app_or in H.
    destruct H; [now left|]. right. exists a. rewrite E. auto.
  - auto.
Qed.

(** What a block has shown stays on the page. *)
Lemma app_bind_shown {A B : Type} (m : app A) (k : A -> app B) :
  exists more, fst (app_bind m k) = fst m ++ more.
Proof.
  destruct m as [shown [a|e]]; simpl.
  - unfold app_bind. destruct (k a) as [more r]. now exists more.
  - exists []. now rewrite app_nil_r.
Qed.


Section Outcome.

Context {ext : Collaborators}.






End Outcome.

(** ** When a run gets to the end *)

Lemma nansum_count_Ok_numbers (vs : list value) sc :
  nansum_count vs = Ok sc -> Forall (fun v => is_number v = true) vs.
Proof.
  revert sc. induction vs as [|v t IH]; intros sc H; [constructor|].
  simpl in H. destruct (nansum_count t) as [acc|]; simpl in H; [|discriminate].
  constructor; [|eauto]. destruct v; simpl in *; auto; discriminate.
Qed.


Lemma has_column_same_getitem (a b : DataFrame) (name : string) :
  getitem a name = getitem b name -> has_column name a = has_column name b.
Proof.
  unfold getitem, has_column.
  destruct (lookup_col name (columns a)), (lookup_col name (columns b));
    congruence.
Qed.



Lemma rbind_Ok {A B : Type} (r : result A) (k : A -> result B) (a : A) :
  r = Ok a -> rbind r k = k a.
Proof. now intros ->. Qed.

Section Completion.

Context {ext : Collaborators}.





(** The columns of the upload as the later blocks find them: the date
    conversion and the annotation touch [date], [sentiment_score] and
    [sentiment] only. *)
Lemma upload_columns_kept df df1 df2 name :
  convert_time df = Ok df1 ->
  generate_sentiment df1 = Ok df2 ->
  name <> "date" -> name <> "sentiment_score" -> name <> "sentiment" ->
  getitem df2 name = getitem df name.
Proof.
  intros H1 H2 N1 N2 N3.
  destruct (generate_sentiment_text _ _ H2) as [text Ht].
  destruct (annotated_columns _ _ _ Ht H2) as [_ [_ [_ [_ [_ Ho]]]]].
  rewrite Ho by assumption.
  now apply (convert_time_other_columns _ _ H1).
Qed.


End Completion.

(** ** Where a run stops *)

Lemma nansum_count_raises (vs : list value) (e : exn) :
  nansum_count vs = Raise e -> e = TypeError.
Proof.
  induction vs as [|v t IH]; simpl; [discriminate|].
  destruct (nansum_count t) as [acc|e']; simpl.
  - destruct v; congruence.
  - intros [= <-]. auto.
Qed.

(** A rating column with a text cell cannot be averaged. *)
Lemma mean_of_text (s : Series) :
  Exists (fun v => is_number v = false) (s_values s) ->
  mean s = Raise TypeError.
Proof.
  intros Hex. unfold mean.
  destruct (nansum_count (s_values s)) as [sc|e] eqn:E; simpl.
  - apply nansum_count_Ok_numbers in E.
    rewrite Forall_forall in E. apply Exists_exists in Hex.
    destruct Hex as [v [Hin Hv]]. rewrite (E v Hin) in Hv. discriminate.
  - now rewrite (nansum_count_raises _ _ E).
Qed.

Section Stops.

Context {ext : Collaborators}.



(** X2. An upload without a [Text] column is loaded and previewed; the
    script then stops with [KeyError: 'Text'] at the sentiment scoring,
    before any metric or chart. *)
Theorem missing_text_column_raises :
  forall df df1,
    convert_time df = Ok df1 ->
    has_column "Text" df = false ->
    main (Some df)
    = (upload_top df ++ [st_info analysing_message], Raise (KeyError ["Text"])).
Proof.
  intros df df1 H1 Ht.
  assert (Hg : generate_sentiment df1 = Raise (KeyError ["Text"])).
  { apply generate_sentiment_missing_text.
    rewrite (has_column_same_getitem df1 df "Text"); auto.
    apply (convert_time_other_columns _ _ H1). discriminate. }
  rewrite main_upload. unfold process.
  rewrite (app_bind_raise _ _ (KeyError ["Text"]))
    by (now rewrite (load_and_annotate_run _ _ H1)).
  rewrite (load_and_annotate_run _ _ H1). reflexivity.
Qed.

(** X3. An upload with a [Text] column and no [Score] column is annotated;
    the script then stops with [KeyError: 'Score'] under the heading of
    the summary, before any metric. *)
Theorem missing_score_column_raises :
  forall df df1,
    convert_time df = Ok df1 ->
    has_column "Text" df = true ->
    has_column "Score" df = false ->
    main (Some df)
    = (upload_top df
       ++ [st_info analysing_message; st_subheader " Summary Metrics"],
       Raise (KeyError ["Score"])).
Proof.
  intros df df1 H1 Ht Hs.
  destruct (convert_time_other_columns _ _ H1) as [_ Hk].
  destruct (has_column_getitem _ _ Ht) as [text Hx].
  rewrite <- Hk in Hx by discriminate.
  destruct (generate_sentiment_columns df1 text Hx) as [d1 [d2 Hg]].
  pose proof (upload_columns_kept _ _ _ "Score" H1 Hg) as Ks.
  set (df2 := setitem _ _ _) in *.
  assert (Hm : summary_metrics df2 = Raise (KeyError ["Score"])).
  { unfold summary_metrics. rewrite Ks by discriminate.
    now rewrite (getitem_no_column _ _ Hs). }
  rewrite main_upload. unfold process.
  rewrite (app_bind_ok _ _ df2)
    by (now rewrite (load_and_annotate_run _ _ H1)).
  rewrite (app_bind_raise _ _ (KeyError ["Score"]))
    by (now rewrite (show_summary_stop _ _ Hm)).
  rewrite (load_and_annotate_run _ _ H1), (show_summary_stop _ _ Hm).
  reflexivity.
Qed.

(** X4. When a cell of the [Score] column holds text, the average cannot
    be computed: the script stops with [TypeError] under the heading of
    the summary, before any metric. *)
Theorem text_in_score_column_raises :
  forall df df1 score,
    convert_time df = Ok df1 ->
    has_column "Text" df = true ->
    getitem df "Score" = Ok score ->
    Exists (fun v => is_number v = false) (s_values score) ->
    main (Some df)
    = (upload_top df
       ++ [st_info analysing_message; st_subheader " Summary Metrics"],
       Raise TypeError).
Proof.
  intros df df1 score H1 Ht Hs Hex.
  destruct (convert_time_other_columns _ _ H1) as [_ Hk].
  destruct (has_column_getitem _ _ Ht) as [text Hx].
  rewrite <- Hk in Hx by discriminate.
  destruct (generate_sentiment_columns df1 text Hx) as [d1 [d2 Hg]].
  pose proof (upload_columns_kept _ _ _ "Score" H1 Hg) as Ks.
  set (df2 := setitem _ _ _) in *.
  assert (Hm : summary_metrics df2 = Raise TypeError).
  { unfold summary_metrics. rewrite Ks by discriminate.
    rewrite (rbind_Ok _ _ _ Hs). now rewrite (mean_of_text _ Hex). }
  rewrite main_upload. unfold process.
  rewrite (app_bind_ok _ _ df2)
    by (now rewrite (load_and_annotate_run _ _ H1)).
  rewrite (app_bind_raise _ _ TypeError)
    by (now rewrite (show_summary_stop _ _ Hm)).
  rewrite (load_and_annotate_run _ _ H1), (show_summary_stop _ _ Hm).
  reflexivity.
Qed.

End Stops.

(** ** The page of a complete run *)

Section Layout.

Context {ext : Collaborators}.





End Layout.

(** ** The prompt and the preview *)

Lemma lookup_col_map (g : Series -> Series) name cols :
  lookup_col name (map (fun c => (fst c, g (snd c))) cols)
  = option_map g (lookup_col name cols).
Proof.
  induction cols as [|[k s] t IH]; simpl; auto.
  destruct (String.eqb k name); auto.
Qed.

(** [df.head(n)]: the same columns, each cut to its first [n] cells. *)
Lemma head_frame (n : nat) (df : DataFrame) :
  nrows (head n df) = Nat.min n (nrows df)
  /\ column_names (head n df) = column_names df
  /\ (forall name,
         column_values (head n df) name = firstn n (column_values df name))
  /\ (wf_frame df -> wf_frame (head n df)).
Proof.
  split; [reflexivity|]. split.
  { unfold column_names, head; simpl. rewrite map_map. reflexivity. }
  split.
  { intros name. unfold column_values, head; simpl.
    rewrite (lookup_col_map
               (fun s => mkSeries (s_dtype s) (firstn n (s_values s)))).
    destruct (lookup_col name (columns df)); simpl; auto.
    now rewrite firstn_nil. }
  intros Hwf. unfold wf_frame, head in *; simpl.
  rewrite Forall_forall in *. intros c Hc.
  apply in_map_iff in Hc. destruct Hc as [c0 [<- Hc0]]. simpl.
  rewrite length_firstn, (Hwf _ Hc0). reflexivity.
Qed.

Section Prompt.

Context {ext : Collaborators}.

Lemma load_and_annotate_infos df s :
  In (st_info s) (fst (load_and_annotate df)) -> s = analysing_message.
Proof.
  unfold load_and_annotate. run_block.
  destruct (convert_time df) as [df1|]; simpl;
    [destruct (generate_sentiment df1); simpl|];
    intros H; pick_info.
Qed.

Lemma show_summary_infos df s : ~ In (st_info s) (fst (show_summary df)).
Proof.
  unfold show_summary. run_block.
  destruct (summary_metrics df); simpl; intros H; pick_info.
Qed.

Lemma show_dashboard_infos df m s :
  ~ In (st_info s) (fst (show_dashboard df m)).
Proof.
  unfold show_dashboard. run_block.
  destruct (getitem df "Score"); destruct (getitem df "sentiment");
    destruct (recent_reviews df); simpl; intros H; pick_info.
Qed.

Lemma show_trends_infos df s :
  In (st_info s) (fst (show_trends df)) -> s = no_time_message.
Proof.
  unfold show_trends. run_block.
  destruct (has_column "date" df); [destruct (trend df)|];
    destruct (top_users df); simpl; intros H; pick_info.
Qed.

(** The two messages the script can display for an upload. *)
Lemma process_infos df s :
  In (st_info s) (fst (process df)) ->
  s = analysing_message \/ s = no_time_message.
Proof.
  unfold process. intros H.
  apply in_app_bind in H.
  destruct H as [H|[df' [_ H]]]; [left; exact (load_and_annotate_infos _ _ H)|].
  apply in_app_bind in H.
  destruct H as [H|[m [_ H]]]; [now apply show_summary_infos in H|].
  apply in_app_bind in H.
  destruct H as [H|[[] [_ H]]]; [now apply show_dashboard_infos in H|].
  right. exact (show_trends_infos _ _ H).
Qed.

(** X7. The prompt asking for a file is displayed exactly when no file
    was uploaded; in that case it is all there is under the title and the
    sidebar, and the script ends normally. *)
Theorem upload_prompt_iff_no_file :
  (forall uploaded_file,
      In (st_info upload_prompt) (fst (main uploaded_file))
      <-> uploaded_file = None)
  /\ main None = (page_top ++ [st_info upload_prompt], Ok tt).
Proof.
  split; [|reflexivity].
  intros [df|]; split; intros H; try discriminate.
  - exfalso. rewrite main_upload in H. simpl in H.
    destruct H as [H|[H|[H|H]]]; try discriminate.
    apply process_infos in H. destruct H as [H|H]; discriminate H.
  - reflexivity.
  - simpl. auto 6.
Qed.

(** X8. Whatever the upload and whatever happens afterwards, the page
    starts with the success line and the preview, and the preview is the
    raw upload cut to its first ten rows: the columns of the file (none of
    the derived ones), the first ten cells of each, a well-formed frame of
    at most ten rows. *)
Theorem preview_is_the_raw_head :
  forall df,
    (exists more, fst (main (Some df)) = upload_top df ++ more)
    /\ nrows (head 10 df) = Nat.min 10 (nrows df)
    /\ column_names (head 10 df) = column_names df
    /\ (forall name,
           column_values (head 10 df) name = firstn 10 (column_values df name))
    /\ (wf_frame df -> wf_frame (head 10 df)).
Proof.
  intros df. split; [|apply head_frame].
  rewrite main_upload. unfold process.
  destruct (app_bind_shown (load_and_annotate df)
              (fun df0 => app_bind (show_summary df0)
                            (fun m => app_bind (show_dashboard df0 m)
                                        (fun _ => show_trends df0))))
    as [more Hmore].
  unfold fst at 1. rewrite Hmore.
  unfold load_and_annotate. run_block.
  destruct (convert_time df) as [df1|]; simpl.
  - destruct (generate_sentiment df1); simpl; eexists; reflexivity.
  - eexists; reflexivity.
Qed.

End Prompt.

(** ** The frame through the date conversion and the annotation *)

Lemma set_col_names (name : string) (s : Series) cols :
  map fst (set_col name s cols)
  = map fst cols
    ++ (match lookup_col name cols with Some _ => [] | None => [name] end).
Proof.
  induction cols as [|[k s'] t IH]; simpl; auto.
  destruct (String.eqb k name) eqn:E; simpl.
  - now rewrite app_nil_r.
  - now rewrite IH.
Qed.

Lemma column_names_setitem df name s :
  column_names (setitem df name s)
  = column_names df ++ (if has_column name df then [] else [name]).
Proof.
  unfold column_names, setitem, has_column; simpl. rewrite set_col_names.
  now destruct (lookup_col name (columns df)).
Qed.

Lemma set_col_In (name : string) (s : Series) cols c :
  In c (set_col name s cols) -> In c cols \/ c = (name, s).
Proof.
  induction cols as [|[k s'] t IH]; simpl.
  - intros [<-|[]]. now right.
  - destruct (String.eqb k name) eqn:E; simpl.
    + apply String.eqb_eq in E. subst k.
      intros [<-|H]; auto.
    + intros [<-|H]; auto. destruct (IH H); auto.
Qed.

(** Assigning a column as long as the index keeps the frame well formed. *)
Lemma wf_setitem df name s :
  wf_frame df -> List.length (s_values s) = nrows df ->
  wf_frame (setitem df name s).
Proof.
  unfold wf_frame, setitem; simpl. intros Hwf Hlen.
  rewrite Forall_forall in *. intros c Hc.
  destruct (set_col_In _ _ _ _ Hc) as [H| ->]; auto.
Qed.

Lemma map_result_length {A B : Type} (f : A -> result B) l ys :
  map_result f l = Ok ys -> List.length ys = List.length l.
Proof.
  revert ys. induction l as [|x t IH]; simpl; intros ys H.
  - now injection H as <-.
  - destruct (f x); simpl in H; [|discriminate].
    destruct (map_result f t) as [ys'|]; simpl in H; [|discriminate].
    injection H as <-. simpl. now rewrite (IH ys').
Qed.

Lemma int64_ns_seconds (s : Z) :
  int64_ns (s * 1000000000) = true <-> timestamp_seconds s.
Proof.
  unfold int64_ns, timestamp_seconds.
  rewrite andb_true_iff, !Z.ltb_lt.
  change (2 ^ 63)%Z with 9223372036854775808%Z. lia.
Qed.

Section Frames.

Context {ext : Collaborators}.

Lemma to_datetime_seconds (secs : list Z) :
  Forall timestamp_seconds secs ->
  map_result to_datetime_cell (map VInt secs) = Ok (map date_of_seconds secs).
Proof.
  induction 1 as [|s t Hs _ IH]; simpl; auto.
  apply int64_ns_seconds in Hs. rewrite Hs. simpl. now rewrite IH.
Qed.


(** X9. The annotation keeps the frame well formed: it succeeds on any
    frame with a [Text] column, leaves the number of rows and the other
    columns as they were, and adds [sentiment_score] and [sentiment]
    after the existing columns (or overwrites columns of these names),
    each with one cell per row. *)
Theorem annotation_keeps_the_frame :
  forall df text,
    wf_frame df ->
    getitem df "Text" = Ok text ->
    exists df' scores labels,
      generate_sentiment df = Ok df'
      /\ wf_frame df'
      /\ nrows df' = nrows df
      /\ column_names df'
         = column_names df
           ++ filter (fun n => negb (has_column n df))
                ["sentiment_score"; "sentiment"]
      /\ getitem df' "sentiment_score" = Ok scores
      /\ getitem df' "sentiment" = Ok labels
      /\ List.length (s_values scores) = nrows df
      /\ List.length (s_values labels) = nrows df
      /\ (forall name, name <> "sentiment_score" -> name <> "sentiment" ->
                       getitem df' name = getitem df name).
Proof.
  intros df text Hwf Ht.
  destruct (generate_sentiment_columns df text Ht) as [d1 [d2 Hg]].
  destruct (annotated_columns _ _ _ Ht Hg) as [d1' [d2' [E1 [E2 [Hn Ho]]]]].
  pose proof (wf_column_length _ _ _ Hwf Ht) as Hlen.
  eexists _, _, _. split; [exact Hg|].
  split.
  { apply wf_setitem; [apply wf_setitem; auto|]; simpl;
      now rewrite length_map. }
  split; [reflexivity|].
  split.
  { rewrite !column_names_setitem, <- app_assoc. f_equal.
    rewrite has_column_setitem_other by discriminate. simpl.
    destruct (has_column "sentiment_score" df), (has_column "sentiment" df);
      reflexivity. }
  split; [exact E1|]. split; [exact E2|].
  simpl. rewrite !length_map. repeat split; auto.
Qed.

(** X10. A [Time] column of whole UNIX seconds within the range of a
    64-bit nanosecond timestamp becomes a [date] column of dtype
    datetime64 holding, row by row, the instant of that second; the frame
    stays well formed and the other columns are not touched. *)
Theorem time_column_becomes_dates :
  forall df time secs,
    wf_frame df ->
    getitem df "Time" = Ok time ->
    s_values time = map VInt secs ->
    Forall timestamp_seconds secs ->
    exists df1,
      convert_time df = Ok df1
      /\ wf_frame df1
      /\ nrows df1 = nrows df
      /\ getitem df1 "date"
         = Ok (mkSeries datetime64 (map date_of_seconds secs))
      /\ column_names df1
         = column_names df ++ (if has_column "date" df then [] else ["date"])
      /\ (forall name, name <> "date" -> getitem df1 name = getitem df name).
Proof.
  intros df time secs Hwf Ht Hv Hs.
  set (date := mkSeries datetime64 (map date_of_seconds secs)).
  assert (H1 : convert_time df = Ok (setitem df "date" date)).
  { unfold convert_time.
    rewrite (getitem_has_column _ _ _ Ht), (rbind_Ok _ _ _ Ht).
    unfold to_datetime. rewrite Hv, (to_datetime_seconds _ Hs). reflexivity. }
  exists (setitem df "date" date). split; [exact H1|].
  split.
  { apply wf_setitem; auto. unfold date; simpl.
    rewrite length_map, <- (wf_column_length _ _ _ Hwf Ht), Hv.
    now rewrite length_map. }
  split; [reflexivity|].
  split; [apply getitem_setitem_same|].
  split; [apply column_names_setitem|].
  intros name Hn. apply getitem_setitem_other. congruence.
Qed.


End Frames.

(** ** Grouping: [distinct], [sort_by], [size_unstack] *)











Section Distinct.

Variable A : Type.
Variable eqb : A -> A -> bool.
Hypothesis eqb_sym : forall a b, eqb a b = eqb b a.
Hypothesis eqb_trans :
  forall a b c, eqb a b = true -> eqb b c = true -> eqb a c = true.



End Distinct.







Section TrendTable.

Context {ext : Collaborators}.


End TrendTable.

(** ** Ranges of the headline numbers *)

Local Open Scope Q_scope.








Local Close Scope Q_scope.

Section Ranges.

Context {ext : Collaborators}.



End Ranges.

(** ** Slices and bars *)


(** A series of counts of sentiment labels has at most three entries. *)
Lemma label_counts_at_most_3 (c : Counts) :
  fresh_keys c ->
  Forall (fun e => is_label (fst e)) c ->
  (List.length c <= 3)%nat.
Proof.
  destruct c as [|[k1 c1] [|[k2 c2] [|[k3 c3] [|[k4 c4] r]]]];
    simpl; try lia.
  intros Hf Hl. exfalso.
  repeat match goal with
         | H : _ /\ _ |- _ => destruct H
         | H : Forall _ (_ :: _) |- _ => inversion H; clear H; subst
         end.
  simpl in *.
  repeat match goal with
         | H : is_label _ |- _ => destruct H as [[] ->]
         end;
    simpl in *; congruence.
Qed.

Lemma value_counts_entry (s : Series) (e : value * nat) :
  In e (value_counts s) ->
  notna (fst e) = true
  /\ snd e = occurrences (fst e) (filter notna (s_values s))
  /\ (1 <= snd e)%nat.
Proof.
  intros Hin.
  pose proof (value_counts_keys _ _ Hin) as Hcell.
  assert (Hna : notna (fst e) = true) by (apply filter_In in Hcell; tauto).
  assert (Hfresh : fresh_keys (value_counts s))
    by (apply fresh_keys_sort_desc, fresh_keys_tally).
  pose proof (value_eqb_refl _ Hna) as Hr.
  split; [assumption|].
  rewrite <- (count_at_entry _ _ Hfresh Hin Hr), count_at_value_counts.
  split; [reflexivity | now apply occurrences_In].
Qed.

Section Charts.

Context {ext : Collaborators}.

(** X15. The pie chart has one slice per sentiment label that occurs, so
    at most three, for pairwise different labels; no slice is empty, and
    the slices add up to the number of rows. *)
Theorem pie_chart_slices :
  forall df text score,
    wf_frame df ->
    getitem df "Text" = Ok text ->
    getitem df "Score" = Ok score ->
    Forall (fun v => is_number v = true) (s_values score) ->
    exists df' m,
      generate_sentiment df = Ok df'
      /\ summary_metrics df' = Ok m
      /\ In (st_plotly_chart
               (px_pie (map fst (sentiment_counts m))
                  (map snd (sentiment_counts m))))
           (fst (show_dashboard df' m))
      /\ (List.length (sentiment_counts m) <= 3)%nat
      /\ fresh_keys (sentiment_counts m)
      /\ Forall is_label (map fst (sentiment_counts m))
      /\ Forall (fun n => (1 <= n)%nat) (map snd (sentiment_counts m))
      /\ list_sum (map snd (sentiment_counts m)) = len df.
Proof.
  intros df text score Hwf Ht Hs Hn.
  destruct (annotate_then_summarise df text score Ht Hs Hn)
    as [df' [m [labels [mu [Hg [Hm [Hl [Hv [Htot [Hc _]]]]]]]]]].
  assert (Hlab : Forall is_label (s_values labels))
    by (rewrite Hv; apply map_label_cells).
  assert (Hfresh : fresh_keys (sentiment_counts m))
    by (rewrite Hc; apply fresh_keys_sort_desc, fresh_keys_tally).
  assert (Hkeys : Forall (fun e => is_label (fst e)) (sentiment_counts m)).
  { rewrite Hc, Forall_forall. intros e He.
    apply value_counts_keys in He. rewrite (label_cells_notna _ Hlab) in He.
    rewrite Forall_forall in Hlab. auto. }
  exists df', m. split; [assumption|]. split; [assumption|].
  split.
  { unfold show_dashboard. run_block.
    destruct (getitem df' "Score"); destruct (getitem df' "sentiment");
      destruct (recent_reviews df'); simpl; auto. }
  split; [now apply label_counts_at_most_3|].
  split; [assumption|].
  split; [now rewrite Forall_map|].
  split.
  { rewrite Forall_map, Hc, Forall_forall. intros e He.
    now apply value_counts_entry in He. }
  fold (total_count (sentiment_counts m)).
  rewrite Hc, total_count_value_counts, (label_cells_notna _ Hlab).
  rewrite Hv, length_map. unfold len.
  now rewrite (wf_column_length _ _ _ Hwf Ht).
Qed.


End Charts.

Section RecentTable.

Context {ext : Collaborators}.

(** X17. When it can be built, the table under "Recent Reviews" has the
    columns Summary, Text, sentiment, Score and date in this order, each
    cut to the first ten cells of the frame, in the order of the file; it
    is a well-formed frame of at most ten rows. *)
Theorem recent_reviews_table_shape :
  forall df table,
    wf_frame df ->
    recent_reviews df = Ok table ->
    column_names table = ["Summary"; "Text"; "sentiment"; "Score"; "date"]
    /\ nrows table = Nat.min 10 (nrows df)
    /\ wf_frame table
    /\ forall name,
        In name ["Summary"; "Text"; "sentiment"; "Score"; "date"] ->
        column_values table name = firstn 10 (column_values df name).
Proof.
  intros df table Hwf H.
  split; [|split; [|split]].
  4: { intros name Hin. now apply recent_reviews_first_rows. }
  all: unfold recent_reviews, getitem_list, has_column in H; simpl in H;
    destruct (lookup_col "Summary" (columns df)) eqn:E1; simpl in H;
    destruct (lookup_col "Text" (columns df)) eqn:E2; simpl in H;
    destruct (lookup_col "sentiment" (columns df)) eqn:E3; simpl in H;
    destruct (lookup_col "Score" (columns df)) eqn:E4; simpl in H;
    destruct (lookup_col "date" (columns df)) eqn:E5; simpl in H;
    try discriminate; injection H as <-.
  - reflexivity.
  - reflexivity.
  - apply head_frame. unfold wf_frame in *; simpl.
    rewrite Forall_forall in Hwf.
    repeat constructor; simpl;
      match goal with
      | |- List.length (s_values ?s) = _ =>
          match goal with
          | E : lookup_col ?n _ = Some s |- _ =>
              exact (Hwf (n, s) (lookup_col_In _ _ _ E))
          end
      end.
Qed.

End RecentTable.

(** ** The properties on the sample uploads *)

#[local] Existing Instance sample_ext.

Lemma sentiment_label_by_thresholds_witness :
  exists (s : Q) (l : Sentiment),
    VFloat (- (1)) = VFloat s
    /\ nth_error
         (s_values
            (mkSeries object [VStr "Positive"; VStr "Negative"; VStr "Neutral"]))
         1
       = Some (VStr (label_name l))
    /\ (lit_0_1 < s -> l = Positive)%Q
    /\ (s < - lit_0_1 -> l = Negative)%Q
    /\ (~ (lit_0_1 < s)%Q -> ~ (s < - lit_0_1)%Q -> l = Neutral).
Proof.
  eapply (sentiment_label_by_thresholds (ext := sample_ext) three_reviews
            _ (mkSeries float64 [VFloat (4 # 5); VFloat (- (1)); VFloat 0])
            _ 1 (VFloat (- (1))));
    vm_compute; reflexivity.
Defined.

Lemma sentiment_counts_sum_to_total_witness :
  exists df' m labels,
    generate_sentiment (ext := sample_ext) three_reviews = Ok df'
    /\ summary_metrics df' = Ok m
    /\ getitem df' "sentiment" = Ok labels
    /\ List.length (s_values labels) = len three_reviews
    /\ Forall is_label (s_values labels)
    /\ total_reviews m = len three_reviews
    /\ (counts_get "Positive" (sentiment_counts m)
        + counts_get "Negative" (sentiment_counts m)
        + counts_get "Neutral" (sentiment_counts m) = total_reviews m)%nat
    /\ total_count (sentiment_counts m) = total_reviews m
    /\ Forall (fun e => is_label (fst e)) (sentiment_counts m).
Proof.
  apply (sentiment_counts_sum_to_total (ext := sample_ext) three_reviews
           (strs ["great product"; "terrible, awful"; "it arrived"])
           (ints [5; 1; 3]%Z)).
  - repeat constructor.
  - reflexivity.
  - reflexivity.
  - repeat constructor.
Defined.




Lemma empty_upload_is_summarised_witness :
  exists df1 df2 m later,
    convert_time (ext := sample_ext) empty_reviews = Ok df1
    /\ generate_sentiment df1 = Ok df2
    /\ summary_metrics df2 = Ok m
    /\ total_reviews m = 0%nat
    /\ avg_rating m = VNaN
    /\ sentiment_counts m = []
    /\ sentiment_pct m = []
    /\ fst (main (Some empty_reviews))
       = [st_title " Amazon Customer Feedback Dashboard";
          st_sidebar_header " Upload & Settings";
          st_sidebar_file_uploader "Upload your Amazon reviews CSV file";
          st_success " Loaded 0 reviews";
          st_expander " Data Preview";
          st_dataframe (head 10 empty_reviews);
          st_info " Analyzing sentiment of reviews... please wait a few seconds";
          st_subheader " Summary Metrics";
          st_metric "Total Reviews" (VInt 0);
          st_metric "Average Rating" VNaN;
          st_metric "Positive (%)" (VStr "0%");
          st_metric "Negative (%)" (VStr "0%")] ++ later.
Proof.
  apply (empty_upload_is_summarised (ext := sample_ext) empty_reviews).
  - repeat constructor.
  - reflexivity.
  - reflexivity.
  - reflexivity.
Defined.

Lemma blank_text_is_scored_not_an_error_witness :
  exists df' scores labels,
    generate_sentiment (ext := sample_ext) reviews_with_blank_text = Ok df'
    /\ getitem df' "sentiment_score" = Ok scores
    /\ getitem df' "sentiment" = Ok labels
    /\ forall i v,
        nth_error [VStr "great product"; VNaN] i = Some v ->
        v = VNaN \/ v = VStr "" ->
        (py_str v = "nan" \/ py_str v = "")
        /\ nth_error (s_values scores) i = Some (VFloat (polarity (py_str v)))
        /\ exists l : Sentiment,
            nth_error (s_values labels) i = Some (VStr (label_name l))
            /\ ((- lit_0_1 <= polarity (py_str v) <= lit_0_1)%Q -> l = Neutral).
Proof.
  apply (blank_text_is_scored_not_an_error (ext := sample_ext)
           reviews_with_blank_text
           (mkSeries object [VStr "great product"; VNaN])).
  reflexivity.
Defined.

Lemma annotation_depends_on_own_text_only_witness :
  exists df1' df2',
    generate_sentiment (ext := sample_ext) three_reviews = Ok df1'
    /\ generate_sentiment (ext := sample_ext) reviews_with_blank_text = Ok df2'
    /\ (forall i,
           annotation_at df1' i
           = option_map annotation_of
               (nth_error
                  [VStr "great product"; VStr "terrible, awful"; VStr "it arrived"]
                  i))
    /\ (forall i j,
           nth_error
             [VStr "great product"; VStr "terrible, awful"; VStr "it arrived"] i
           = nth_error [VStr "great product"; VNaN] j ->
           annotation_at df1' i = annotation_at df2' j)
    /\ (Permutation
          [VStr "great product"; VStr "terrible, awful"; VStr "it arrived"]
          [VStr "great product"; VNaN] ->
        Permutation (annotated_rows df1') (annotated_rows df2')).
Proof.
  eexists. eexists.
  split; [vm_compute; reflexivity|]. split; [vm_compute; reflexivity|].
  apply (annotation_depends_on_own_text_only (ext := sample_ext)
           three_reviews reviews_with_blank_text
           (strs ["great product"; "terrible, awful"; "it arrived"])
           (mkSeries object [VStr "great product"; VNaN]));
    vm_compute; reflexivity.
Defined.

(** ** The further properties on the sample uploads *)


Lemma missing_text_column_raises_witness :
  main (Some reviews_without_text)
  = (upload_top reviews_without_text ++ [st_info analysing_message],
     Raise (KeyError ["Text"])).
Proof.
  apply (missing_text_column_raises reviews_without_text
           (setitem reviews_without_text "date" three_dates));
    reflexivity.
Defined.

Lemma missing_score_column_raises_witness :
  main (Some reviews_without_score)
  = (upload_top reviews_without_score
     ++ [st_info analysing_message; st_subheader " Summary Metrics"],
     Raise (KeyError ["Score"])).
Proof.
  apply (missing_score_column_raises reviews_without_score
           (setitem reviews_without_score "date" three_dates));
    reflexivity.
Defined.

Lemma text_in_score_column_raises_witness :
  main (Some reviews_with_a_word_as_score)
  = (upload_top reviews_with_a_word_as_score
     ++ [st_info analysing_message; st_subheader " Summary Metrics"],
     Raise TypeError).
Proof.
  apply (text_in_score_column_raises reviews_with_a_word_as_score
           (setitem reviews_with_a_word_as_score "date" three_dates)
           (strs ["5"; "one"; "3"])).
  - reflexivity.
  - reflexivity.
  - reflexivity.
  - apply Exists_cons_hd. reflexivity.
Defined.



Lemma annotation_keeps_the_frame_witness :
  exists df' scores labels,
    generate_sentiment three_reviews = Ok df'
    /\ wf_frame df'
    /\ nrows df' = nrows three_reviews
    /\ column_names df'
       = column_names three_reviews
         ++ filter (fun n => negb (has_column n three_reviews))
              ["sentiment_score"; "sentiment"]
    /\ getitem df' "sentiment_score" = Ok scores
    /\ getitem df' "sentiment" = Ok labels
    /\ List.length (s_values scores) = nrows three_reviews
    /\ List.length (s_values labels) = nrows three_reviews
    /\ (forall name, name <> "sentiment_score" -> name <> "sentiment" ->
                     getitem df' name = getitem three_reviews name).
Proof.
  apply (annotation_keeps_the_frame three_reviews
           (strs ["great product"; "terrible, awful"; "it arrived"])).
  - repeat constructor.
  - reflexivity.
Defined.

Lemma time_column_becomes_dates_witness :
  exists df1,
    convert_time three_reviews = Ok df1
    /\ wf_frame df1
    /\ nrows df1 = nrows three_reviews
    /\ getitem df1 "date" = Ok three_dates
    /\ column_names df1
       = column_names three_reviews
         ++ (if has_column "date" three_reviews then [] else ["date"])
    /\ (forall name, name <> "date" ->
                     getitem df1 name = getitem three_reviews name).
Proof.
  apply (time_column_becomes_dates three_reviews
           (ints [1303862400; 1346976000; 1219017600]%Z)
           [1303862400; 1346976000; 1219017600]%Z).
  - repeat constructor.
  - reflexivity.
  - reflexivity.
  - repeat (constructor; [unfold timestamp_seconds; lia|]). constructor.
Defined.





Lemma pie_chart_slices_witness :
  exists df' m,
    generate_sentiment three_reviews = Ok df'
    /\ summary_metrics df' = Ok m
    /\ In (st_plotly_chart
             (px_pie (map fst (sentiment_counts m))
                (map snd (sentiment_counts m))))
         (fst (show_dashboard df' m))
    /\ (List.length (sentiment_counts m) <= 3)%nat
    /\ fresh_keys (sentiment_counts m)
    /\ Forall is_label (map fst (sentiment_counts m))
    /\ Forall (fun n => (1 <= n)%nat) (map snd (sentiment_counts m))
    /\ list_sum (map snd (sentiment_counts m)) = len three_reviews.
Proof.
  apply (pie_chart_slices three_reviews
           (strs ["great product"; "terrible, awful"; "it arrived"])
           (ints [5; 1; 3]%Z)).
  - repeat constructor.
  - reflexivity.
  - reflexivity.
  - repeat constructor.
Defined.


Lemma recent_reviews_table_shape_witness :
  exists df' table,
    generate_sentiment (setitem three_reviews "date" three_dates) = Ok df'
    /\ recent_reviews df' = Ok table
    /\ column_names table = ["Summary"; "Text"; "sentiment"; "Score"; "date"]
    /\ nrows table = Nat.min 10 (nrows df')
    /\ wf_frame table
    /\ forall name,
        In name ["Summary"; "Text"; "sentiment"; "Score"; "date"] ->
        column_values table name = firstn 10 (column_values df' name).
Proof.
  eexists. eexists.
  split; [vm_compute; reflexivity|]. split; [vm_compute; reflexivity|].
  apply recent_reviews_table_shape.
  - repeat constructor.
  - vm_compute. reflexivity.
Defined.
